(** * Sahara Sahaya: the relief-centre ingestion pipeline

    A shallow embedding of [standardise_columns] and [detect_encoding]
    (app.py) and of [load_relief_centers] and [filter_by_disaster]
    (utils/map_utils.py), with the pandas operations they call written out
    as functions on an explicit table model.

    Conventions of the model.
    - A Python [str] is a [string]; one [ascii] stands for one code point
      below 256 (the Latin-1 range), which is closed under [str.lower].
    - A cell read with [dtype=str] is a [str] or the missing value NaN:
      [cell := option string], [None] being NaN.
    - A [Series] is the list of its cells in index order, a [DataFrame] the
      list of its named columns in column order (names may repeat).  Index
      labels are not modelled: every Series the code combines comes from the
      same frame, so alignment is positional and [reset_index(drop=True)] is
      the identity.
    - A Python exception is the [Raise] case of [result].
    - Two things pandas does depend on the dtype of a column or on the
      regular-expression engine behind [.str], which differ between pandas
      releases and are not part of a frame: what [&] makes of two columns
      without rows, and which characters [\s] matches.  Each is an argument
      of the function that meets it ([rowless], [engine]), and the
      properties are stated for every value of it. *)

From Stdlib Require Import List Bool Arith ZArith NArith Lia.
From Stdlib Require Import Ascii String.
From Stdlib Require Import Floats.SpecFloat.
Import ListNotations.

Local Open Scope string_scope.
Local Open Scope list_scope.

(* ------------------------------------------------------------------ *)
(** * Python strings *)

Module PyStr.

Definition code (c : ascii) : N := N_of_ascii c.

Definition between (lo hi : N) (c : ascii) : bool :=
  (N.leb lo (code c) && N.leb (code c) hi)%bool.

(** [str.isspace] on one character, for code points below 256:
    TAB..CR, FS..US, SPACE, NEL and NBSP.  It is the class stripped by
    [str.strip()] and matched by [\s] in Python's [re]. *)
Definition isspace (c : ascii) : bool :=
  (between 9 13 c || between 28 32 c
   || N.eqb (code c) 133 || N.eqb (code c) 160)%bool.

(** [str.lower] on one character: A-Z, and the Latin-1 capitals
    U+00C0..U+00DE except the multiplication sign U+00D7. *)
Definition lower_char (c : ascii) : ascii :=
  if (between 65 90 c
      || (between 192 222 c && negb (N.eqb (code c) 215)))%bool
  then ascii_of_N (code c + 32)
  else c.

Fixpoint lower (s : string) : string :=
  match s with
  | EmptyString => EmptyString
  | String c s' => String (lower_char c) (lower s')
  end.

Fixpoint lstrip (s : string) : string :=
  match s with
  | EmptyString => EmptyString
  | String c s' => if isspace c then lstrip s' else s
  end.

Fixpoint rstrip (s : string) : string :=
  match s with
  | EmptyString => EmptyString
  | String c s' =>
      match rstrip s' with
      | EmptyString => if isspace c then EmptyString else String c EmptyString
      | r => String c r
      end
  end.

Definition strip (s : string) : string := rstrip (lstrip s).

(** The class [\s] of RE2: TAB, LF, FF, CR and SPACE (not VT, not FS..US,
    not NEL, not NBSP). *)
Definition isspace_re2 (c : ascii) : bool :=
  (N.eqb (code c) 9 || N.eqb (code c) 10 || N.eqb (code c) 12
   || N.eqb (code c) 13 || N.eqb (code c) 32)%bool.

(** [s.replace(r"\s+", "", regex=True)], [space] being the class [\s] of
    the engine: every character of the class is removed. *)
Fixpoint remove_spaces (space : ascii -> bool) (s : string) : string :=
  match s with
  | EmptyString => EmptyString
  | String c s' =>
      if space c then remove_spaces space s'
      else String c (remove_spaces space s')
  end.

(** [re.split(p, s)] for a pattern [p] that matches exactly one character of
    the class [sep]: the pieces between separators, empty pieces included;
    the result is never the empty list. *)
Fixpoint split_on (sep : ascii -> bool) (s : string) : list string :=
  match s with
  | EmptyString => [EmptyString]
  | String c s' =>
      if sep c then EmptyString :: split_on sep s'
      else match split_on sep s' with
           | [] => [String c EmptyString]
           | p :: ps => String c p :: ps
           end
  end.

End PyStr.

(* ------------------------------------------------------------------ *)
(** * Python floats: [float(x)] on a string *)

Module PyFloat.

Import PyStr.

(** A Python float is an IEEE 754 binary64 number. *)
Definition prec : Z := 53.
Definition emax : Z := 1024.

Definition of_Z (z : Z) : spec_float := binary_normalize prec emax z 0 false.

(** The double nearest (ties to even) to [(-1)^neg * m * 10^e], as
    [float()] computes it from a decimal literal. *)
Definition of_decimal (neg : bool) (m : N) (e : Z) : spec_float :=
  match m with
  | N0 => S754_zero neg
  | Npos p =>
      if (0 <=? e)%Z
      then match (Z.pos p * 10 ^ e)%Z with
           | Zpos q => binary_round prec emax neg q 0
           | _ => S754_zero neg
           end
      else SFdiv prec emax (S754_finite neg p 0)
                           (S754_finite false (Z.to_pos (10 ^ (- e))) 0)
  end.

Definition is_digit (c : ascii) : bool := between 48 57 c.

Definition digit_val (c : ascii) : N := (code c - 48)%N.

(** The whitespace [float()] strips at both ends: the C locale's
    [isspace], and NEL and NBSP, which it first rewrites to a space. *)
Definition isspace_float (c : ascii) : bool :=
  (between 9 13 c || N.eqb (code c) 32
   || N.eqb (code c) 133 || N.eqb (code c) 160)%bool.

(** PEP 515: an underscore may stand only between two digits; the
    underscores are dropped before the number is parsed. *)
Fixpoint drop_underscores (prev_digit : bool) (l : list ascii) : option (list ascii) :=
  match l with
  | [] => Some []
  | c :: l' =>
      if N.eqb (code c) 95 then
        match l' with
        | d :: _ => if (prev_digit && is_digit d)%bool
                    then drop_underscores false l' else None
        | [] => None
        end
      else option_map (cons c) (drop_underscores (is_digit c) l')
  end.

Fixpoint lstrip_float (l : list ascii) : list ascii :=
  match l with
  | [] => []
  | c :: l' => if isspace_float c then lstrip_float l' else l
  end.

Definition strip_float (l : list ascii) : list ascii :=
  rev (lstrip_float (rev (lstrip_float l))).

(** The longest prefix of digits and what follows it. *)
Fixpoint span_digits (l : list ascii) : list ascii * list ascii :=
  match l with
  | c :: l' =>
      if is_digit c
      then let (ds, r) := span_digits l' in (c :: ds, r)
      else ([], l)
  | [] => ([], [])
  end.

Definition digits_value (ds : list ascii) : N :=
  fold_left (fun acc d => (10 * acc + digit_val d)%N) ds 0%N.

Definition take_sign (l : list ascii) : bool * list ascii :=
  match l with
  | c :: l' =>
      if N.eqb (code c) 45 then (true, l')
      else if N.eqb (code c) 43 then (false, l')
      else (false, l)
  | [] => (false, [])
  end.

Definition lower_list (l : list ascii) : string :=
  lower (string_of_list_ascii l).

(** [digits [. digits] [(e|E) [sign] digits]] with at least one digit in
    the mantissa; the whole input must be consumed. *)
Definition parse_decimal (l : list ascii) : option (N * Z) :=
  let (ip, r1) := span_digits l in
  let (fp, r2) :=
    match r1 with
    | c :: r => if N.eqb (code c) 46 then span_digits r else ([], r1)
    | [] => ([], [])
    end in
  match ip ++ fp with
  | [] => None
  | ds =>
      let m := digits_value ds in
      let shift := Z.of_nat (List.length fp) in
      match r2 with
      | [] => Some (m, (- shift)%Z)
      | c :: r3 =>
          if (N.eqb (code c) 101 || N.eqb (code c) 69)%bool then
            let (eneg, r4) := take_sign r3 in
            match span_digits r4 with
            | (d :: ed, []) =>
                let x := Z.of_N (digits_value (d :: ed)) in
                Some (m, ((if eneg then - x else x) - shift)%Z)
            | _ => None
            end
          else None
      end
  end.

(** [float(s)] for a [str]; [None] is the [ValueError] it raises. *)
Definition float_of_string (s : string) : option spec_float :=
  match drop_underscores false (list_ascii_of_string s) with
  | None => None
  | Some l =>
      let (neg, body) := take_sign (strip_float l) in
      let word := lower_list body in
      if (String.eqb word "inf" || String.eqb word "infinity")%bool
      then Some (S754_infinity neg)
      else if String.eqb word "nan" then Some S754_nan
      else match parse_decimal body with
           | Some (m, e) => Some (of_decimal neg m e)
           | None => None
           end
  end.

(** [lo <= f <= hi], with [lo] and [hi] integer literals. *)
Definition in_range (lo hi : Z) (f : spec_float) : bool :=
  (SFleb (of_Z lo) f && SFleb f (of_Z hi))%bool.

End PyFloat.

(* ------------------------------------------------------------------ *)
(** * Exceptions *)

Inductive exn : Set :=
  ValueError | KeyError | AttributeError | IndexingError | TypeError.

Inductive result (A : Type) : Type :=
| Ok (a : A)
| Raise (e : exn).

Arguments Ok {A} a.
Arguments Raise {A} e.

Definition bind {A B : Type} (r : result A) (k : A -> result B) : result B :=
  match r with
  | Ok a => k a
  | Raise e => Raise e
  end.

Notation "x <- r ;; k" := (bind r (fun x => k))
  (at level 61, r at next level, right associativity).

(* ------------------------------------------------------------------ *)
(** * The pandas operations the code calls *)

Module Pandas.

(** A frame whose cells have type [A]: its named columns, in order. *)
Definition Frame (A : Type) : Type := list (string * list A).

Section Frames.
Context {A : Type}.

(** [df.columns] *)
Definition columns (df : Frame A) : list string := map fst df.

(** [k in df], [k in df.columns] *)
Definition contains (df : Frame A) (k : string) : bool :=
  existsb (String.eqb k) (columns df).

(** [len(df.index)], for a frame with at least one column. *)
Definition nrows (df : Frame A) : nat :=
  match df with
  | [] => 0
  | (_, s) :: _ => List.length s
  end.

(** What [df[k]] evaluates to: a Series when one column is named [k], a
    DataFrame of all of them when several are. *)
Inductive item : Type :=
| ASeries (s : list A)
| AFrame (cols : list (list A)).

Definition getitem (df : Frame A) (k : string) : result item :=
  match filter (fun c => String.eqb (fst c) k) df with
  | [] => Raise KeyError
  | [c] => Ok (ASeries (snd c))
  | cs => Ok (AFrame (map snd cs))
  end.

(** [df[k]] on a frame whose column names are pairwise distinct and include
    [k] (every frame the code builds itself): the Series of that column. *)
Definition col (df : Frame A) (k : string) : list A :=
  match find (fun c => String.eqb (fst c) k) df with
  | Some c => snd c
  | None => []
  end.

(** Assignment to a column: an existing name keeps its position, a new one
    is appended. *)
Fixpoint set_column (df : Frame A) (k : string) (s : list A) : Frame A :=
  match df with
  | [] => [(k, s)]
  | (k', s') :: df' =>
      if String.eqb k' k then (k, s) :: df' else (k', s') :: set_column df' k s
  end.

(** [s[mask]], [df[mask]] with a boolean mask: the entries at the positions
    where the mask is [True], in order. *)
Fixpoint select (mask : list bool) (s : list A) : list A :=
  match mask, s with
  | b :: mask', x :: s' => if b then x :: select mask' s' else select mask' s'
  | _, _ => []
  end.

Definition select_rows (mask : list bool) (df : Frame A) : Frame A :=
  map (fun c => (fst c, select mask (snd c))) df.

End Frames.

Arguments item A : clear implicits.

(** [m1 & m2] on boolean Series. *)
Fixpoint band (m1 m2 : list bool) : list bool :=
  match m1, m2 with
  | b1 :: m1', b2 :: m2' => (b1 && b2)%bool :: band m1' m2'
  | _, _ => []
  end.

(** ** Columns without rows

    [s.apply(f)], for [f] returning booleans, is the boolean Series of the
    results when [s] has rows.  When [s] has no row it is an empty Series of
    the dtype of [s], which is not boolean (the cells of the model are
    strings, lists and NaN). *)

(** [a.apply(f) & b.apply(g)].  On columns without rows the operands are
    not boolean and [&] goes by their dtype, which a [Frame] does not
    record.  Two object columns, as [pd.DataFrame(columns=...)] creates
    them, give the empty boolean mask.  When one of them was copied from
    the table the caller was given ([from_file]: strings read from a
    file), the outcome is the argument [rowless]: [None] for the empty
    boolean mask, which is what pandas 2 gives (it holds the strings as
    object columns), [Some e] for the exception [e], which is TypeError
    under pandas 3 (it holds them as str columns). *)
Definition apply_and {A : Type} (rowless : option exn) (from_file : bool)
           (f g : A -> bool) (a b : list A) : result (list bool) :=
  match a, b with
  | [], [] =>
      if from_file
      then match rowless with
           | Some e => Raise e
           | None => Ok []
           end
      else Ok []
  | _, _ => Ok (band (map f a) (map g b))
  end.

(** [df[s.apply(f)]].  With rows the key is a boolean mask and selects the
    rows where it is [True].  Without rows the key is an empty Series that
    is not boolean, which [df[...]] reads as a list of column labels: the
    result is the frame of no columns. *)
Definition getitem_applied {A B : Type} (f : B -> bool) (s : list B)
           (df : Frame A) : Frame A :=
  match s with
  | [] => []
  | _ :: _ => select_rows (map f s) df
  end.

(** The engine [.str.replace(..., regex=True)] hands the pattern to:
    Python's [re] on object columns, RE2 on the Arrow-backed str columns of
    pandas 3.  They differ on the class [\s]. *)
Inductive regex_engine : Set := PythonRe | RE2.

Definition regex_space (engine : regex_engine) (c : ascii) : bool :=
  match engine with
  | PythonRe => PyStr.isspace c
  | RE2 => PyStr.isspace_re2 c
  end.

(** ** Frames of string cells, as [read_csv(dtype=str)] makes them *)

(** A cell is a [str] or NaN. *)
Definition cell : Type := option string.
Definition Series : Type := list cell.
Definition DataFrame : Type := Frame cell.

Definition cell_eqb (c : cell) (x : string) : bool :=
  match c with
  | Some s => String.eqb s x
  | None => false
  end.

Definition notna (c : cell) : bool :=
  match c with
  | Some _ => true
  | None => false
  end.

(** [pd.DataFrame(columns=cols)]: the columns exist, there is no row. *)
Definition empty_frame (cols : list string) : DataFrame :=
  map (fun k => (k, [])) cols.

(** [value.reindex(df.index)] between two range indexes: the first [n]
    entries, NaN where [value] is shorter. *)
Definition reindex (n : nat) (s : Series) : Series :=
  firstn n (s ++ repeat None n).

(** pandas' [_ensure_valid_index]: a frame without rows takes the index of
    the first non-empty Series assigned to it; the columns it already has
    become NaN over that index. *)
Definition ensure_valid_index (out : DataFrame) (v : Series) : DataFrame :=
  if (Nat.eqb (nrows out) 0 && negb (Nat.eqb (List.length v) 0))%bool
  then map (fun c => (fst c, repeat None (List.length v))) out
  else out.

(** [out[k] = v] for a Series [v]. *)
Definition setitem (out : DataFrame) (k : string) (v : Series) : DataFrame :=
  let out' := ensure_valid_index out v in
  let n := match out' with [] => List.length v | _ => nrows out' end in
  set_column out' k (reindex n v).

(** [out[k] = x] for a scalar [x]: broadcast over the index. *)
Definition setitem_scalar (out : DataFrame) (k : string) (x : string) : DataFrame :=
  set_column out k (repeat (Some x) (nrows out)).

(** [out[k] = v] where [v] is whatever [df[...]] gave: a DataFrame of
    several columns cannot be stored under one key (ValueError). *)
Definition setitem_item (out : DataFrame) (k : string) (v : item cell)
  : result DataFrame :=
  match v with
  | ASeries s => Ok (setitem out k s)
  | AFrame [s] => Ok (setitem out k s)
  | AFrame _ => Raise ValueError
  end.

(** [out.get(k, default)] *)
Definition get (out : DataFrame) (k : string) (default : item cell) : item cell :=
  if contains out k then ASeries (col out k) else default.

(** [s.eq(x).all()] *)
Definition all_eq (s : Series) (x : string) : bool :=
  forallb (fun c => cell_eqb c x) s.

(** [s.fillna(x)] *)
Definition fillna (x : string) (s : Series) : Series :=
  map (fun c => match c with None => Some x | Some _ => c end) s.

(** [s.replace(a, b)]: NaN is not equal to [a] and stays. *)
Definition replace (a b : string) (s : Series) : Series :=
  map (fun c => if cell_eqb c a then Some b else c) s.

(** [df.dropna(subset=ks)]: the rows without NaN in the columns [ks]. *)
Definition dropna (ks : list string) (df : DataFrame) : DataFrame :=
  select_rows
    (fold_right (fun k m => band (map notna (col df k)) m)
                (repeat true (nrows df)) ks)
    df.

(** [s.str.split(sep, expand=True)]: the frame of the pieces, column [j]
    holding piece [j] of every row (NaN where a row has fewer pieces or is
    NaN itself). *)
Definition str_split_expand (sep : ascii) (s : Series) : list Series :=
  let pieces :=
    map (fun c => match c with
                  | Some x => map Some (PyStr.split_on (Ascii.eqb sep) x)
                  | None => [None]
                  end) s in
  let width := fold_right Nat.max 0 (map (@List.length cell) pieces) in
  map (fun j => map (fun ps => nth j ps None) pieces) (seq 0 width).

End Pandas.

Import PyStr PyFloat Pandas.

(* ------------------------------------------------------------------ *)
(** * Python codecs, strict decoding *)

Module Codec.

Inductive codec : Set := Latin1 | Ascii | Utf8.

(** [codecs.lookup] on the names the model covers. *)
Definition lookup (enc : string) : option codec :=
  if existsb (String.eqb enc) ["latin1"; "latin-1"; "iso-8859-1"] then Some Latin1
  else if String.eqb enc "ascii" then Some Ascii
  else if existsb (String.eqb enc) ["utf-8"; "utf8"] then Some Utf8
  else None.

Definition rng (lo hi b : N) : bool := (N.leb lo b && N.leb b hi)%bool.

(** Well-formed UTF-8 (the Unicode standard, table 3-7). *)
Fixpoint utf8_wf (l : list N) : bool :=
  match l with
  | [] => true
  | b0 :: r0 =>
      if rng 0 127 b0 then utf8_wf r0 else
      match r0 with
      | [] => false
      | b1 :: r1 =>
          if (rng 194 223 b0 && rng 128 191 b1)%bool then utf8_wf r1 else
          match r1 with
          | [] => false
          | b2 :: r2 =>
              if ((rng 224 224 b0 && rng 160 191 b1
                   || rng 225 236 b0 && rng 128 191 b1
                   || rng 237 237 b0 && rng 128 159 b1
                   || rng 238 239 b0 && rng 128 191 b1)
                  && rng 128 191 b2)%bool then utf8_wf r2 else
              match r2 with
              | [] => false
              | b3 :: r3 =>
                  if ((rng 240 240 b0 && rng 144 191 b1
                       || rng 241 243 b0 && rng 128 191 b1
                       || rng 244 244 b0 && rng 128 143 b1)
                      && rng 128 191 b2 && rng 128 191 b3)%bool
                  then utf8_wf r3 else false
              end
          end
      end
  end.

(** Whether [raw.decode(codec)] returns; Latin-1 maps every byte to the
    code point of the same number. *)
Definition decodes (c : codec) (raw : list Byte.byte) : bool :=
  match c with
  | Latin1 => true
  | Ascii => forallb (fun b => N.leb (Byte.to_N b) 127) raw
  | Utf8 => utf8_wf (map Byte.to_N raw)
  end.

End Codec.

(* ------------------------------------------------------------------ *)
(** * app.py: cleaning an uploaded relief-centre table *)

Module App.

Definition REQUIRED_COLS : list string :=
  ["name"; "type"; "latitude"; "longitude";
   "inventory"; "last_updated"; "contact"; "supported_disasters"].

(** The aliases of each canonical column, in the order the dict lists
    them (a Python dict iterates in insertion order). *)
Definition ALIASES : list (string * list string) :=
  [("name", ["hospital_name"; "facility name"; "station name";
             "centre name"; "center name"; "name"]);
   ("type", ["hospital_category"; "category"; "hospital_type";
             "centre type"; "type"]);
   ("latitude", ["lat"; "latitude"; "latitude(dd)"; "lat_dd"]);
   ("longitude", ["lon"; "long"; "longitude"; "longitude(dd)"; "lng"; "lng_dd"]);
   ("contact", ["mobile_number"; "mobile"; "telephone"; "phone"; "contact";
                "phone_no"; "phone number"])].

(** [raw_bytes[:50_000]] keeps this many bytes. *)
Definition sample_size : nat := N.to_nat 50000.

(** [detect_encoding], over the guesser [chardet_detect], which stands for
    [chardet.detect(...)["encoding"]] ([None] when it has no guess). *)
Definition detect_encoding (chardet_detect : list Byte.byte -> option string)
           (raw_bytes : list Byte.byte) : string :=
  let enc := lower (match chardet_detect (firstn sample_size raw_bytes) with
                    | Some e => e
                    | None => ""
                    end) in
  if existsb (String.eqb enc) [""; "ascii"; "unknown"] then "latin1" else enc.

(** The decoding [read_csv(BytesIO(raw), encoding=enc)] performs on the
    whole of [raw]: [Some true] when [raw] decodes, [Some false] when it
    raises [UnicodeDecodeError], [None] for a codec outside the model. *)
Definition read_csv_decodes (enc : string) (raw : list Byte.byte) : option bool :=
  option_map (fun c => Codec.decodes c raw) (Codec.lookup enc).

(** [good_lat], [good_lon]: [float(x)] of NaN is NaN, which compares
    false; a [ValueError] of [float] is caught and gives [False]. *)
Definition good_coord (bound : Z) (x : cell) : bool :=
  match x with
  | None => false
  | Some s =>
      match float_of_string s with
      | Some f => in_range (- bound) bound f
      | None => false
      end
  end.

Definition good_lat : cell -> bool := good_coord 90.
Definition good_lon : cell -> bool := good_coord 180.

(** [df.columns = [c.strip().lower() for c in df.columns]] *)
Definition normalise (c : string) : string := lower (strip c).

Definition normalise_header (df : DataFrame) : DataFrame :=
  map (fun c => (normalise (fst c), snd c)) df.

(** Step 1, inner loop: the first candidate present in [df] is copied to
    [out[target]], and the loop breaks. *)
Fixpoint map_alias (df out : DataFrame) (target : string) (candidates : list string)
  : result DataFrame :=
  match candidates with
  | [] => Ok out
  | cand :: rest =>
      if contains df cand
      then v <- getitem df cand ;; setitem_item out target v
      else map_alias df out target rest
  end.

(** Step 1, outer loop over [ALIASES.items()]. *)
Fixpoint map_aliases (df out : DataFrame) (aliases : list (string * list string))
  : result DataFrame :=
  match aliases with
  | [] => Ok out
  | (target, candidates) :: rest =>
      out' <- map_alias df out target candidates ;;
      map_aliases df out' rest
  end.

(** [coords[j]] *)
Definition coords_col (coords : list Series) (j : nat) : result (item cell) :=
  match nth_error coords j with
  | Some s => Ok (ASeries s)
  | None => Raise KeyError
  end.

(** Step 2: split a single "lat,lon" column. *)
Definition split_coordinates (df out : DataFrame) : result DataFrame :=
  if (contains df "location_coordinates"
      && (negb (contains out "latitude") || negb (contains out "longitude")))%bool
  then
    v <- getitem df "location_coordinates" ;;
    coords <- match v with
              | ASeries s => Ok (str_split_expand "," s)
              | AFrame _ => Raise AttributeError
              end ;;
    c0 <- coords_col coords 0 ;;
    out1 <- setitem_item out "latitude" (get out "latitude" c0) ;;
    c1 <- coords_col coords 1 ;;
    setitem_item out1 "longitude" (get out1 "longitude" c1)
  else Ok out.

(** Step 3: required columns still missing from [out] become blank. *)
Definition fill_missing (out : DataFrame) : DataFrame :=
  fold_left
    (fun o c => if negb (contains o c) then setitem_scalar o c "" else o)
    REQUIRED_COLS out.

(** Step 4: prefer the mobile number when the contact column is blank. *)
Definition tidy_contact (df out : DataFrame) : result DataFrame :=
  if (contains df "mobile_number" && all_eq (col out "contact") "")%bool
  then v <- getitem df "mobile_number" ;; setitem_item out "contact" v
  else Ok out.

(** The candidates [ALIASES] lists for [target]. *)
Definition candidates_of (target : string) : list string :=
  match find (fun a => String.eqb (fst a) target) ALIASES with
  | Some a => snd a
  | None => []
  end.

(** Whether step 1 copied a column of [df] to [out[target]]: otherwise
    [out[target]] is still the object column [out] was created with. *)
Definition copied (df : DataFrame) (target : string) : bool :=
  existsb (contains df) (candidates_of target).

(** Step 5 (line 102): the rows whose latitude and longitude are both
    valid; [from_file] says whether one of the two columns was copied from
    the upload. *)
Definition valid_coordinates (rowless : option exn) (from_file : bool)
           (out : DataFrame) : result DataFrame :=
  mask <- apply_and rowless from_file good_lat good_lon
                    (col out "latitude") (col out "longitude") ;;
  Ok (select_rows mask out).

Definition essentials : list string :=
  ["name"; "type"; "latitude"; "longitude"; "contact"].

(** [query("name != '' and type != '' and contact != ''")]; NaN differs
    from the empty string. *)
Definition query_nonempty (out : DataFrame) : DataFrame :=
  let ne := map (fun c => negb (cell_eqb c "")) in
  select_rows
    (band (band (ne (col out "name")) (ne (col out "type"))) (ne (col out "contact")))
    out.

(** Step 6: drop the rows that miss an essential field. *)
Definition drop_incomplete (out : DataFrame) : DataFrame :=
  query_nonempty (dropna essentials out).

(** Step 7: defaults of the optional columns. *)
Definition fill_defaults (out : DataFrame) : DataFrame :=
  let out1 := setitem out "inventory" (fillna "" (col out "inventory")) in
  let out2 := setitem out1 "last_updated" (fillna "" (col out1 "last_updated")) in
  setitem out2 "supported_disasters"
          (replace "" "General" (col out2 "supported_disasters")).

(** Steps 1 to 4: the frame [out] before any row is dropped. *)
Definition collect_columns (df : DataFrame) : result DataFrame :=
  out <- map_aliases df (empty_frame REQUIRED_COLS) ALIASES ;;
  out <- split_coordinates df out ;;
  tidy_contact df (fill_missing out).

Definition standardise_columns (rowless : option exn) (df : DataFrame)
  : result DataFrame :=
  let df := normalise_header df in
  out <- collect_columns df ;;
  out <- valid_coordinates rowless
           (copied df "latitude" || copied df "longitude")%bool out ;;
  Ok (fill_defaults (drop_incomplete out)).

End App.

(* ------------------------------------------------------------------ *)
(** * utils/map_utils.py: loading and filtering the saved table *)

Module MapUtils.

(** A cell of the loaded frame: a string, NaN, or the list of tags that
    [load_relief_centers] stores in [supported_disasters]. *)
Inductive obj : Type :=
| Str (s : string)
| NaN
| PyList (l : list string).

Definition obj_of_cell (c : cell) : obj :=
  match c with
  | Some s => Str s
  | None => NaN
  end.

Definition is_separator (c : ascii) : bool :=
  (N.eqb (code c) 124 || N.eqb (code c) 44)%bool.

(** [.fillna("").astype(str).str.replace(r"\s+", "", regex=True)
    .str.split(r"[|,]")] on one cell. *)
Definition split_tags (engine : regex_engine) (c : cell) : list string :=
  split_on is_separator
           (remove_spaces (regex_space engine)
                          (match c with Some s => s | None => "" end)).

(** [load_relief_centers], on the frame [pd.read_csv(path)] returned, its
    cells given as the strings [astype(str)] makes of them; [engine] is the
    regular-expression engine behind [.str.replace]. *)
Definition load_relief_centers (engine : regex_engine) (df : DataFrame)
  : result (Frame obj) :=
  v <- getitem df "supported_disasters" ;;
  match v with
  | ASeries s =>
      Ok (set_column (map (fun c => (fst c, map obj_of_cell (snd c))) df)
                     "supported_disasters"
                     (map (fun c => PyList (split_tags engine c)) s))
  | AFrame _ => Raise AttributeError
  end.

Definition nonempty (s : string) : bool :=
  match s with
  | EmptyString => false
  | String _ _ => true
  end.

(** [_matches], with [disaster] already lowercased by the caller. *)
Definition _matches (disaster : string) (lst : obj) : bool :=
  match lst with
  | PyList l =>
      existsb (fun item => String.eqb disaster (lower item)) (filter nonempty l)
  | _ => false
  end.

(** [filter_by_disaster]; on a table without rows the result has no
    columns (see [getitem_applied]). *)
Definition filter_by_disaster (df : Frame obj) (disaster : string)
  : result (Frame obj) :=
  let disaster := lower disaster in
  v <- getitem df "supported_disasters" ;;
  match v with
  | ASeries s => Ok (getitem_applied (_matches disaster) s df)
  | AFrame _ => Raise IndexingError
  end.

End MapUtils.

Import App MapUtils.

(* ------------------------------------------------------------------ *)
(** * The row view of a frame, used to state the properties *)

(** All columns hold [n] cells, as in every pandas frame. *)
Definition uniform {A : Type} (n : nat) (df : Frame A) : Prop :=
  Forall (fun c => List.length (snd c) = n) df.

(** One row of a frame that has the eight canonical columns. *)
Record CanonicalRecord : Type := mkRecord {
  r_name : cell;
  r_type : cell;
  r_latitude : cell;
  r_longitude : cell;
  r_inventory : cell;
  r_last_updated : cell;
  r_contact : cell;
  r_supported_disasters : cell
}.

(** [df.loc[i, k]] under a range index. *)
Definition cell_at (df : DataFrame) (k : string) (i : nat) : cell :=
  nth i (col df k) None.

Definition record_at (df : DataFrame) (i : nat) : CanonicalRecord :=
  {| r_name := cell_at df "name" i;
     r_type := cell_at df "type" i;
     r_latitude := cell_at df "latitude" i;
     r_longitude := cell_at df "longitude" i;
     r_inventory := cell_at df "inventory" i;
     r_last_updated := cell_at df "last_updated" i;
     r_contact := cell_at df "contact" i;
     r_supported_disasters := cell_at df "supported_disasters" i |}.

(** The rows of a frame, in index order. *)
Definition records (df : DataFrame) : list CanonicalRecord :=
  map (record_at df) (seq 0 (nrows df)).

(** The frame with the canonical columns whose rows are [l]. *)
Definition of_records (l : list CanonicalRecord) : DataFrame :=
  [("name", map r_name l);
   ("type", map r_type l);
   ("latitude", map r_latitude l);
   ("longitude", map r_longitude l);
   ("inventory", map r_inventory l);
   ("last_updated", map r_last_updated l);
   ("contact", map r_contact l);
   ("supported_disasters", map r_supported_disasters l)].

Definition nonblank (c : cell) : bool := negb (cell_eqb c "").

Definition coordinates_ok (r : CanonicalRecord) : bool :=
  (good_lat (r_latitude r) && good_lon (r_longitude r))%bool.

Definition essentials_present (r : CanonicalRecord) : bool :=
  (notna (r_name r) && (notna (r_type r) && (notna (r_latitude r)
   && (notna (r_longitude r) && (notna (r_contact r) && true)))))%bool.

Definition essentials_nonblank (r : CanonicalRecord) : bool :=
  (nonblank (r_name r) && nonblank (r_type r) && nonblank (r_contact r))%bool.

(** The rows steps 5 and 6 keep. *)
Definition keep (r : CanonicalRecord) : bool :=
  (coordinates_ok r && (essentials_present r && essentials_nonblank r))%bool.

Definition fill_cell (x : string) (c : cell) : cell :=
  match c with
  | None => Some x
  | Some _ => c
  end.

Definition replace_cell (a b : string) (c : cell) : cell :=
  if cell_eqb c a then Some b else c.

(** What step 7 does to one row. *)
Definition finish (r : CanonicalRecord) : CanonicalRecord :=
  {| r_name := r_name r;
     r_type := r_type r;
     r_latitude := r_latitude r;
     r_longitude := r_longitude r;
     r_inventory := fill_cell "" (r_inventory r);
     r_last_updated := fill_cell "" (r_last_updated r);
     r_contact := r_contact r;
     r_supported_disasters := replace_cell "" "General" (r_supported_disasters r) |}.

(** The optional fields of a row are all NaN. *)
Definition optional_nan (r : CanonicalRecord) : Prop :=
  r_inventory r = None /\ r_last_updated r = None
  /\ r_supported_disasters r = None.

(* ------------------------------------------------------------------ *)
(** * Auxiliary definitions: shapes, example tables, specifications *)

Definition nan_record : CanonicalRecord :=
  mkRecord None None None None None None None None.

Definition fill_inventory (r : CanonicalRecord) : CanonicalRecord :=
  mkRecord (r_name r) (r_type r) (r_latitude r) (r_longitude r)
           (fill_cell "" (r_inventory r)) (r_last_updated r) (r_contact r)
           (r_supported_disasters r).

Definition fill_last_updated (r : CanonicalRecord) : CanonicalRecord :=
  mkRecord (r_name r) (r_type r) (r_latitude r) (r_longitude r)
           (r_inventory r) (fill_cell "" (r_last_updated r)) (r_contact r)
           (r_supported_disasters r).

Definition default_disasters (r : CanonicalRecord) : CanonicalRecord :=
  mkRecord (r_name r) (r_type r) (r_latitude r) (r_longitude r)
           (r_inventory r) (r_last_updated r) (r_contact r)
           (replace_cell "" "General" (r_supported_disasters r)).

(** Membership in an explicit list. *)
Ltac in_list := simpl; repeat first [left; reflexivity | right].

(** [out] has the canonical columns, all of one length. *)
Definition canonical_shape (out : DataFrame) : Prop :=
  columns out = REQUIRED_COLS /\ exists n, uniform n out.

(** The three columns no alias maps to hold NaN only. *)
Definition optional_blank (out : DataFrame) : Prop :=
  Forall (eq None) (col out "inventory")
  /\ Forall (eq None) (col out "last_updated")
  /\ Forall (eq None) (col out "supported_disasters").

Definition collect_inv (out : DataFrame) : Prop :=
  canonical_shape out /\ optional_blank out.

(** An upload with loosely named columns: two good rows (the second with a
    blank name), a latitude out of range, a missing name, an empty type. *)
Definition sample_upload : DataFrame :=
  [(" Name", [Some "Camp A"; Some " "; Some "Camp C"; None; Some "Camp E"]);
   ("TYPE ", [Some "shelter"; Some "clinic"; Some "clinic"; Some "clinic"; Some ""]);
   ("Lat", [Some "12.9"; Some "45"; Some "91"; Some "1"; Some "2"]);
   ("Long", [Some "77.6"; Some "-180"; Some "0"; Some "1"; Some "2"]);
   ("supported_disasters", [Some "Flood"; Some ""; None; None; None]);
   ("inventory", [Some "rice"; Some ""; None; None; None]);
   ("Phone", [Some "100"; Some "101"; Some "102"; Some "103"; Some "104"])].

Definition sample_clean : DataFrame :=
  of_records
    [mkRecord (Some "Camp A") (Some "shelter") (Some "12.9") (Some "77.6")
              (Some "") (Some "") (Some "100") None;
     mkRecord (Some " ") (Some "clinic") (Some "45") (Some "-180")
              (Some "") (Some "") (Some "101") None].

(** How many columns of [df] are named [k]. *)
Definition count_col (df : DataFrame) (k : string) : nat :=
  List.length (filter (fun c => String.eqb (fst c) k) df).

(** The alias that step 1 selects among [candidates], if any, names a
    single column of [df]. *)
Definition alias_unique (df : DataFrame) (candidates : list string) : bool :=
  match find (contains df) candidates with
  | Some cand => Nat.eqb (count_col df cand) 1
  | None => true
  end.

Definition selected_unique (df : DataFrame) : bool :=
  forallb (fun a => alias_unique df (snd a)) ALIASES.

(** A header that repeats the latitude alias once normalised. *)
Definition repeated_header_upload : DataFrame :=
  [("Name", [Some "Camp A"]); ("Type", [Some "shelter"]);
   ("Lat", [Some "12.9"]); ("lat ", [Some "12.9"]);
   ("Long", [Some "77.6"]); ("Phone", [Some "100"])].



(** An upload whose coordinates stand in one [location_coordinates]
    column, with no latitude or longitude column. *)
Definition combined_upload : DataFrame :=
  [("name", [Some "Camp A"]); ("type", [Some "shelter"]);
   ("contact", [Some "100"]);
   ("location_coordinates", [Some "12.9,77.6"])].

(** An upload with every essential column and no [supported_disasters]
    column, and one whose [supported_disasters] cell is empty. *)
Definition plain_upload : DataFrame :=
  [("name", [Some "Camp A"]); ("type", [Some "shelter"]);
   ("lat", [Some "12.9"]); ("lon", [Some "77.6"]); ("phone", [Some "100"])].

Definition empty_tag_upload : DataFrame :=
  plain_upload ++ [("supported_disasters", [Some ""])].

Definition is_optional (k : string) : bool :=
  existsb (String.eqb k) ["inventory"; "last_updated"; "supported_disasters"].

(** The columns of an upload that are named, up to case and surrounding
    blanks, [inventory], [last_updated] or [supported_disasters]. *)
Definition optional_name (k : string) : bool := is_optional (normalise k).

Definition without_optional (df : DataFrame) : DataFrame :=
  filter (fun c => negb (optional_name (fst c))) df.

Definition drop_optional (df : DataFrame) : DataFrame :=
  filter (fun c => negb (is_optional (fst c))) df.

Definition plain_clean : DataFrame :=
  of_records [mkRecord (Some "Camp A") (Some "shelter") (Some "12.9")
                       (Some "77.6") (Some "") (Some "") (Some "100") None].

(** A row whose name is blank but not empty. *)
Definition blank_name_upload : DataFrame :=
  [("name", [Some " "]); ("type", [Some "shelter"]);
   ("lat", [Some "12.9"]); ("lon", [Some "77.6"]); ("phone", [Some "100"])].

(** While step 1 runs over a table of [n] rows, [out] has no rows yet or
    has [n] rows. *)
Definition filling (n : nat) (out : DataFrame) : Prop :=
  columns out = REQUIRED_COLS /\ (uniform 0 out \/ uniform n out).

(** A header with [Lat], [Long] and, with higher priority, [lon]. *)
Definition lon_and_long_upload : DataFrame :=
  [("Name", [Some "Camp A"]); ("Type", [Some "shelter"]);
   ("Lat", [Some "12.9"]); ("Long", [Some "77.6"]); ("lon", [Some "9"]);
   ("Phone", [Some "100"])].

(** The tag list holds the selected disaster type, letter case apart. *)
Definition has_tag (disaster : string) (tags : list string) : bool :=
  existsb (fun item => String.eqb (lower item) (lower disaster)) tags.


(** A saved table: one centre for floods and cyclones, one for fires and
    floods, one without tags. *)
Definition saved_centers : DataFrame :=
  [("name", [Some "Camp A"; Some "Camp B"; Some "Camp C"]);
   ("supported_disasters", [Some "Flood|Cyclone"; Some " fire , Flood"; None])].

(** A stand-in for the statistical guesser that is right about every
    sample it names: ASCII text is ["ascii"], other well-formed UTF-8 is
    ["utf-8"], anything else has no guess. *)
Definition sample_guesser (sample : list Byte.byte) : option string :=
  if forallb (fun b => N.leb (Byte.to_N b) 127) sample then Some "ascii"
  else if Codec.utf8_wf (map Byte.to_N sample) then Some "utf-8"
  else None.

(** 50,000 bytes of well-formed UTF-8 (U+00E9, 25,000 times) followed by
    the byte FF, which no UTF-8 sequence contains. *)
Definition broken_after_sample : list Byte.byte :=
  List.concat (repeat [Byte.xc3; Byte.xa9] (N.to_nat 25000)) ++ [Byte.xff].

Definition fallback_names : list string := [""; "ascii"; "unknown"].

(** The frame step 5 returns when [&] gives a boolean mask. *)
Definition select_valid (out : DataFrame) : DataFrame :=
  select_rows
    (band (map good_lat (col out "latitude")) (map good_lon (col out "longitude")))
    out.

(** An upload that has a header and no row. *)
Definition header_only_upload : DataFrame :=
  [("Name", []); ("Type", []); ("Lat", []); ("Long", []); ("Phone", [])].


(** An upload with rows whose header has no alias at all. *)
Definition unrecognised_upload : DataFrame :=
  [("centre", [Some "Camp A"]); ("where", [Some "12.9,77.6"])].



(** The entries of [xs] that stand at the positions of the [keys]
    satisfying [p]. *)
Definition rows_where {A B : Type} (p : A -> bool) (keys : list A) (xs : list B)
  : list B :=
  map snd (filter (fun kx => p (fst kx)) (combine keys xs)).

(** The selected disaster type is one of the non-empty tags of the cell,
    letter case apart. *)
Definition tagged (engine : regex_engine) (disaster : string) (c : cell) : bool :=
  has_tag disaster (filter nonempty (split_tags engine c)).



(* ------------------------------------------------------------------ *)
(** * app.py: the reader chosen for an upload *)

Module Upload.

(** [s.endswith(suffix)]: some tail of [s] is [suffix]. *)
Fixpoint endswith (s suffix : string) : bool :=
  if String.eqb s suffix then true
  else match s with
       | EmptyString => false
       | String _ s' => endswith s' suffix
       end.

(** The pandas call [read_any_file] ends in: [read_excel] with an engine,
    or [read_csv] with an encoding. *)
Inductive reader : Set :=
| read_excel (engine : string)
| read_csv (encoding : string).

(** [read_any_file], up to the call it makes, on the upload's name and
    bytes. *)
Definition read_any_file (chardet_detect : list Byte.byte -> option string)
           (name : string) (raw : list Byte.byte) : reader :=
  let fn := lower name in
  if (endswith fn ".xls" || endswith fn ".xlsx")%bool
  then read_excel (if endswith fn "xlsx" then "openpyxl" else "xlrd")
  else read_csv (detect_encoding chardet_detect raw).

End Upload.

(* ------------------------------------------------------------------ *)
(** * app.py: the admin password and the session state *)

Module Session.

(** [get_admin_pass]: [secret] is [st.secrets["ADMIN_PASS"]] ([None] when
    the lookup raises), [env] is the environment variable [ADMIN_PASS]
    ([None] when it is not set). *)
Definition get_admin_pass (secret env : option string) : string :=
  match secret with
  | Some p => p
  | None => match env with
            | Some p => p
            | None => ""
            end
  end.

Inductive loc_mode : Set := AutoDetect | ManualEntry.

Section Runs.

(** A location as the geocoders return it. *)
Variable Coord : Type.

(** [st.session_state], with the three keys the script keeps in it. *)
Record session_state : Type := mkSession {
  is_admin : bool;
  user_coordinates : option Coord;
  search_triggered : bool
}.

(** The state the first run starts from: each key is set to its default
    when it is missing. *)
Definition initial : session_state := mkSession false None false.

(** What one run of the script reads: the widgets, the password configured
    at that time, and what [geocode_location] and [detect_gps_location]
    return if the run calls them ([None] for not found). *)
Record run_inputs : Type := mkInputs {
  pwd : string;
  login_clicked : bool;
  secret : option string;
  env : option string;
  mode : loc_mode;
  manual_addr : string;
  locate_clicked : bool;
  geocoded : option Coord;
  detect_clicked : bool;
  detected : option Coord;
  search_clicked : bool
}.

(** The admin login block. *)
Definition login (st : session_state) (i : run_inputs) : session_state :=
  if login_clicked i then
    if String.eqb (pwd i) (get_admin_pass (secret i) (env i))
    then mkSession true (user_coordinates st) (search_triggered st)
    else st
  else st.

Definition set_coordinates (st : session_state) (coords : option Coord)
  : session_state :=
  match coords with
  | Some c => mkSession (is_admin st) (Some c) (search_triggered st)
  | None => st
  end.

(** The location block. *)
Definition locate (st : session_state) (i : run_inputs) : session_state :=
  match mode i with
  | ManualEntry =>
      if (nonempty (manual_addr i) && locate_clicked i)%bool
      then set_coordinates st (geocoded i)
      else st
  | AutoDetect =>
      if detect_clicked i then set_coordinates st (detected i) else st
  end.

(** The search trigger block. *)
Definition trigger (st : session_state) (i : run_inputs) : session_state :=
  if search_clicked i then
    match user_coordinates st with
    | Some _ => mkSession (is_admin st) (user_coordinates st) true
    | None => st
    end
  else st.

(** One run of the script on the session state. *)
Definition rerun (st : session_state) (i : run_inputs) : session_state :=
  trigger (locate (login st i) i) i.

(** The state after a sequence of runs. *)
Definition session (runs : list run_inputs) : session_state :=
  fold_left rerun runs initial.

(** The guard of the results section. *)
Definition shows_results (st : session_state) : bool :=
  (search_triggered st
   && match user_coordinates st with Some _ => true | None => false end)%bool.

(** The guard of the admin upload section. *)
Definition shows_admin_upload (st : session_state) : bool := is_admin st.

(** What a run never undoes: [st'] is admin, has a location, has the search
    on, whenever [st] has. *)
Definition at_least (st st' : session_state) : Prop :=
  (is_admin st = true -> is_admin st' = true)
  /\ (user_coordinates st <> None -> user_coordinates st' <> None)
  /\ (search_triggered st = true -> search_triggered st' = true).

(** A search can be on only once a location is known. *)
Definition located_if_searching (st : session_state) : Prop :=
  search_triggered st = true -> user_coordinates st <> None.

End Runs.

End Session.

(** [relief_df["inventory"].fillna("").str.strip().ne("")] on one cell. *)
Definition has_inventory (c : cell) : bool :=
  negb (String.eqb (strip (match c with Some s => s | None => "" end)) "").

(** Every name in the alias table. *)
Definition alias_names : list string := flat_map snd ALIASES.

Definition is_alias (k : string) : bool := existsb (String.eqb k) alias_names.

(** The columns of an upload that alias resolution can select. *)
Definition alias_columns (df : DataFrame) : DataFrame :=
  filter (fun c => is_alias (normalise (fst c))) df.

Definition keep_aliases (df : DataFrame) : DataFrame :=
  filter (fun c => is_alias (fst c)) df.

(** How many entries of a mask are [True]. *)
Definition count_true (m : list bool) : nat := List.length (filter id m).

(** A float that is a number: not NaN, not an infinity. *)
Definition is_finite (f : spec_float) : bool :=
  match f with
  | S754_zero _ | S754_finite _ _ _ => true
  | S754_infinity _ | S754_nan => false
  end.

(* ------------------------------------------------------------------ *)
(** * Lists, masks *)

Section Masks.
Context {A : Type}.
Implicit Types (m : list bool) (s : list A).

Lemma select_nil_r m : select m (@nil A) = [].
Proof. destruct m; reflexivity. Qed.

Lemma Forall_select (P : A -> Prop) m s :
  Forall P s -> Forall P (select m s).
Proof.
  intros H; revert m; induction H; intros [|b m]; simpl; auto.
  destruct b; auto.
Qed.

Lemma select_map_filter (p : A -> bool) s :
  select (map p s) s = filter p s.
Proof.
  induction s as [|x s IH]; simpl; auto.
  destruct (p x); rewrite IH; reflexivity.
Qed.

Lemma select_map {B : Type} (f : A -> B) m s :
  select m (map f s) = map f (select m s).
Proof.
  revert s; induction m as [|b m IH]; intros [|x s]; simpl; auto.
  destruct b; simpl; rewrite IH; reflexivity.
Qed.

Lemma band_map (p q : A -> bool) s :
  band (map p s) (map q s) = map (fun x => (p x && q x)%bool) s.
Proof. induction s; simpl; congruence. Qed.

Lemma map_const_repeat (b : bool) s :
  map (fun _ => b) s = repeat b (List.length s).
Proof. induction s; simpl; congruence. Qed.

Lemma select_length_eq {B : Type} m s (t : list B) :
  List.length s = List.length t ->
  List.length (select m s) = List.length (select m t).
Proof.
  revert s t; induction m as [|b m IH]; intros [|x s] [|y t]; simpl; auto;
    try discriminate.
  intros H; injection H as H. destruct b; simpl; auto.
Qed.

Lemma map_nth_seq (d : A) s :
  map (fun i => nth i s d) (seq 0 (List.length s)) = s.
Proof.
  induction s as [|x s IH]; simpl; auto.
  f_equal. rewrite <- seq_shift, map_map. exact IH.
Qed.

End Masks.

(* ------------------------------------------------------------------ *)
(** * Frames: columns, assignment, row selection *)

Lemma reindex_same (s : Series) : reindex (List.length s) s = s.
Proof.
  unfold reindex. rewrite firstn_app, Nat.sub_diag, firstn_all. simpl.
  apply app_nil_r.
Qed.

Lemma reindex_length n (s : Series) : List.length (reindex n s) = n.
Proof.
  unfold reindex. rewrite firstn_length_le; auto.
  rewrite length_app, repeat_length. lia.
Qed.

Lemma uniform_nrows {A : Type} n (df : Frame A) :
  uniform n df -> df <> [] -> nrows df = n.
Proof.
  destruct df as [|[k s] df]; [congruence|].
  intros H _. inversion H; subst. reflexivity.
Qed.

Lemma uniform_set_column {A : Type} n (df : Frame A) k s :
  uniform n df -> List.length s = n -> uniform n (set_column df k s).
Proof.
  intros H Hs. induction H as [|[k' s'] df Hc H IH]; simpl.
  - repeat constructor. exact Hs.
  - destruct (String.eqb k' k); constructor; auto.
Qed.

Lemma columns_set_column {A : Type} (df : Frame A) k s :
  contains df k = true -> columns (set_column df k s) = columns df.
Proof.
  unfold contains, columns.
  induction df as [|[k' s'] df IH]; simpl; [discriminate|].
  rewrite String.eqb_sym.
  destruct (String.eqb k' k) eqn:E; simpl.
  - intros _. apply String.eqb_eq in E. congruence.
  - intros H. f_equal. auto.
Qed.

Lemma col_set_column_same {A : Type} (df : Frame A) k s :
  col (set_column df k s) k = s.
Proof.
  unfold col. induction df as [|[k' s'] df IH]; simpl.
  - rewrite String.eqb_refl. reflexivity.
  - destruct (String.eqb k' k) eqn:E; simpl.
    + rewrite String.eqb_refl. reflexivity.
    + rewrite E. exact IH.
Qed.

Lemma col_set_column_other {A : Type} (df : Frame A) k k' s :
  k <> k' -> col (set_column df k s) k' = col df k'.
Proof.
  intros Hk. unfold col. induction df as [|[k0 s0] df IH]; simpl.
  - apply String.eqb_neq in Hk. rewrite Hk. reflexivity.
  - destruct (String.eqb k0 k) eqn:E; simpl.
    + apply String.eqb_eq in E. subst k0.
      apply String.eqb_neq in Hk. rewrite Hk. reflexivity.
    + destruct (String.eqb k0 k'); auto.
Qed.

Lemma col_select_rows {A : Type} m (df : Frame A) k :
  col (select_rows m df) k = select m (col df k).
Proof.
  unfold col, select_rows.
  induction df as [|[k0 s0] df IH]; simpl.
  - symmetry. apply select_nil_r.
  - destruct (String.eqb k0 k); auto.
Qed.

Lemma columns_select_rows {A : Type} m (df : Frame A) :
  columns (select_rows m df) = columns df.
Proof. unfold columns, select_rows. rewrite map_map. reflexivity. Qed.

Lemma uniform_select_rows {A : Type} n m (df : Frame A) :
  uniform n df -> exists n', uniform n' (select_rows m df).
Proof.
  intros H. exists (List.length (select m (repeat tt n))).
  unfold uniform, select_rows. rewrite Forall_map.
  eapply Forall_impl; [|exact H]. simpl. intros c Hc.
  apply select_length_eq. rewrite repeat_length. exact Hc.
Qed.

(** Assigning a Series of the frame's own length stores it as it is. *)
Lemma setitem_same_len (out : DataFrame) k (v : Series) :
  out <> [] -> uniform (List.length v) out ->
  setitem out k v = set_column out k v.
Proof.
  intros Hne Hu. unfold setitem, ensure_valid_index.
  rewrite (uniform_nrows _ _ Hu Hne).
  destruct (Nat.eqb (List.length v) 0); simpl;
    destruct out; try congruence;
    rewrite (uniform_nrows _ _ Hu Hne), reindex_same; reflexivity.
Qed.

(** The first assignment to a frame without rows gives it its index. *)
Lemma setitem_first (out : DataFrame) k (v : Series) :
  out <> [] -> uniform 0 out ->
  setitem out k v
  = set_column (map (fun c => (fst c, repeat None (List.length v))) out) k v.
Proof.
  intros Hne Hu. unfold setitem, ensure_valid_index.
  rewrite (uniform_nrows _ _ Hu Hne). simpl.
  destruct (Nat.eqb (List.length v) 0) eqn:E; simpl.
  - apply Nat.eqb_eq in E. apply length_zero_iff_nil in E. subst v. simpl.
    assert (Hid : map (fun c : string * list cell => (fst c, @nil cell)) out = out).
    { clear Hne. induction Hu as [|[k0 s0] df Hc Hu IH]; simpl; auto.
      simpl in Hc. apply length_zero_iff_nil in Hc. subst. now rewrite IH. }
    f_equal; [symmetry; exact Hid|].
    destruct out; try congruence.
    rewrite (uniform_nrows _ _ Hu Hne). reflexivity.
  - destruct out as [|[k0 s0] out]; try congruence. simpl.
    rewrite repeat_length, reindex_same. reflexivity.
Qed.

(* ------------------------------------------------------------------ *)
(** * Frames with the canonical columns, seen as lists of rows *)

Lemma record_at_of_records l i :
  record_at (of_records l) i = nth i l nan_record.
Proof.
  unfold record_at, cell_at, of_records, col. simpl.
  rewrite (map_nth r_name l nan_record), (map_nth r_type l nan_record),
    (map_nth r_latitude l nan_record), (map_nth r_longitude l nan_record),
    (map_nth r_inventory l nan_record), (map_nth r_last_updated l nan_record),
    (map_nth r_contact l nan_record),
    (map_nth r_supported_disasters l nan_record).
  destruct (nth i l nan_record); reflexivity.
Qed.

Lemma records_of_records l : records (of_records l) = l.
Proof.
  unfold records.
  replace (nrows (of_records l)) with (List.length l)
    by (simpl; now rewrite length_map).
  transitivity (map (fun i => nth i l nan_record) (seq 0 (List.length l)));
    [|apply map_nth_seq].
  apply map_ext. intros i. apply record_at_of_records.
Qed.

Lemma uniform_of_records l : uniform (List.length l) (of_records l).
Proof. unfold uniform, of_records. repeat constructor; simpl; apply length_map. Qed.

Lemma of_records_nonempty l : of_records l <> [].
Proof. discriminate. Qed.

Lemma map_cell_at_records (df : DataFrame) k :
  List.length (col df k) = nrows df ->
  map (fun i => cell_at df k i) (seq 0 (nrows df)) = col df k.
Proof. intros H. unfold cell_at. rewrite <- H. apply map_nth_seq. Qed.

(** A frame with the canonical columns is the frame of its rows. *)
Lemma canonical_frame_records (out : DataFrame) n :
  columns out = REQUIRED_COLS -> uniform n out ->
  out = of_records (records out).
Proof.
  intros Hc Hu. unfold columns, REQUIRED_COLS in Hc.
  do 8 (destruct out as [|[? ?] out]; [discriminate|]).
  destruct out; [|discriminate].
  simpl in Hc. injection Hc as -> -> -> -> -> -> -> ->.
  unfold uniform in Hu.
  repeat match goal with
         | H : Forall _ (_ :: _) |- _ => inversion H; subst; clear H
         end.
  simpl in *.
  unfold of_records, records. rewrite !map_map. simpl r_name.
  cbn [r_name r_type r_latitude r_longitude r_inventory r_last_updated
       r_contact r_supported_disasters record_at].
  repeat match goal with
         | |- (?k, ?s) :: _ = (?k, _) :: _ => f_equal
         | |- (?k, ?s) = (?k, _) => f_equal
         end;
    symmetry;
    match goal with
    | |- map (fun i => cell_at ?df ?k i) (seq 0 (nrows ?df)) = ?s =>
        apply (map_cell_at_records df k)
    end; unfold col; simpl; congruence.
Qed.

(** ** Steps 5 to 7 on the rows *)

(** Step 5 either raises or keeps the rows with valid coordinates. *)
Lemma valid_coordinates_ok rowless from_file (out out' : DataFrame) :
  valid_coordinates rowless from_file out = Ok out' -> out' = select_valid out.
Proof.
  unfold valid_coordinates, apply_and, select_valid.
  destruct (col out "latitude") as [|x lat]; [destruct (col out "longitude")|];
    [destruct from_file; [destruct rowless|]|..]; simpl; intros H;
    inversion H; reflexivity.
Qed.

(** It raises only on a table without rows. *)
Lemma valid_coordinates_rows rowless from_file (out : DataFrame) :
  col out "latitude" <> [] ->
  valid_coordinates rowless from_file out = Ok (select_valid out).
Proof.
  unfold valid_coordinates, apply_and, select_valid.
  destruct (col out "latitude") as [|x lat]; [congruence|reflexivity].
Qed.

Lemma valid_coordinates_lenient rowless from_file (out : DataFrame) :
  rowless = None \/ from_file = false ->
  valid_coordinates rowless from_file out = Ok (select_valid out).
Proof.
  unfold valid_coordinates, apply_and, select_valid.
  intros [->| ->];
    destruct (col out "latitude") as [|x lat]; try reflexivity;
    destruct (col out "longitude"); try reflexivity;
    destruct from_file; try reflexivity; destruct rowless; reflexivity.
Qed.

Lemma select_valid_records l :
  select_valid (of_records l) = of_records (filter coordinates_ok l).
Proof.
  unfold select_valid, of_records, select_rows, col; simpl.
  rewrite !map_map, band_map.
  change (fun x => (good_lat (r_latitude x) && good_lon (r_longitude x))%bool)
    with coordinates_ok.
  rewrite !select_map, !select_map_filter. reflexivity.
Qed.

Lemma dropna_records l :
  dropna essentials (of_records l) = of_records (filter essentials_present l).
Proof.
  unfold dropna, of_records, select_rows, col; simpl.
  rewrite length_map, <- (map_const_repeat true l), !map_map, !band_map.
  change (fun x => (notna (r_name x) && (notna (r_type x) && (notna (r_latitude x)
   && (notna (r_longitude x) && (notna (r_contact x) && true)))))%bool)
    with essentials_present.
  rewrite !select_map, !select_map_filter. reflexivity.
Qed.

Lemma query_nonempty_records l :
  query_nonempty (of_records l) = of_records (filter essentials_nonblank l).
Proof.
  unfold query_nonempty, of_records, select_rows, col; simpl.
  rewrite !map_map, !band_map.
  change (fun x => (negb (cell_eqb (r_name x) "") && negb (cell_eqb (r_type x) "")
                   && negb (cell_eqb (r_contact x) ""))%bool)
    with essentials_nonblank.
  rewrite !select_map, !select_map_filter. reflexivity.
Qed.

Lemma filter_filter {A : Type} (p q : A -> bool) l :
  filter q (filter p l) = filter (fun x => (p x && q x)%bool) l.
Proof.
  induction l as [|x l IH]; simpl; auto.
  destruct (p x); simpl; [destruct (q x)|]; rewrite IH; reflexivity.
Qed.

Lemma setitem_records l k (v : Series) :
  List.length v = List.length l ->
  setitem (of_records l) k v = set_column (of_records l) k v.
Proof.
  intros H. apply setitem_same_len; [discriminate|].
  rewrite H. apply uniform_of_records.
Qed.

Lemma fill_inventory_records l :
  setitem (of_records l) "inventory" (fillna "" (col (of_records l) "inventory"))
  = of_records (map fill_inventory l).
Proof.
  rewrite setitem_records
    by (unfold fillna, col; simpl; now rewrite !length_map).
  unfold of_records, fillna, col; simpl. rewrite !map_map. reflexivity.
Qed.

Lemma fill_last_updated_records l :
  setitem (of_records l) "last_updated"
          (fillna "" (col (of_records l) "last_updated"))
  = of_records (map fill_last_updated l).
Proof.
  rewrite setitem_records
    by (unfold fillna, col; simpl; now rewrite !length_map).
  unfold of_records, fillna, col; simpl. rewrite !map_map. reflexivity.
Qed.

Lemma default_disasters_records l :
  setitem (of_records l) "supported_disasters"
          (replace "" "General" (col (of_records l) "supported_disasters"))
  = of_records (map default_disasters l).
Proof.
  rewrite setitem_records
    by (unfold replace, col; simpl; now rewrite !length_map).
  unfold of_records, replace, col; simpl. rewrite !map_map. reflexivity.
Qed.

Lemma fill_defaults_records l :
  fill_defaults (of_records l) = of_records (map finish l).
Proof.
  unfold fill_defaults.
  rewrite fill_inventory_records, fill_last_updated_records,
    default_disasters_records, !map_map.
  reflexivity.
Qed.

(** Steps 5 to 7 keep the rows that pass [keep] and finish each of them. *)
Lemma finishing_records l :
  fill_defaults (drop_incomplete (select_valid (of_records l)))
  = of_records (map finish (filter keep l)).
Proof.
  unfold drop_incomplete.
  rewrite select_valid_records, dropna_records, query_nonempty_records,
    fill_defaults_records, !filter_filter.
  reflexivity.
Qed.

(* ------------------------------------------------------------------ *)
(** * Steps 1 to 4: the shape of [out] *)

Lemma columns_ensure_valid_index (out : DataFrame) v :
  columns (ensure_valid_index out v) = columns out.
Proof.
  unfold ensure_valid_index, columns.
  destruct (_ && _)%bool; auto. rewrite map_map. reflexivity.
Qed.

Lemma uniform_ensure_valid_index n out v :
  uniform n out -> exists n', uniform n' (ensure_valid_index out v).
Proof.
  intros H. unfold ensure_valid_index. destruct (_ && _)%bool.
  - exists (List.length v). unfold uniform. rewrite Forall_map.
    apply Forall_forall. intros c _. simpl. apply repeat_length.
  - now exists n.
Qed.

Lemma col_blank_frame (out : DataFrame) n k :
  Forall (eq None) (col (map (fun c => (fst c, repeat (@None string) n)) out) k).
Proof.
  unfold col. induction out as [|[k0 s0] out IH]; simpl; [constructor|].
  destruct (String.eqb k0 k); auto. simpl.
  apply Forall_forall. intros x Hx. symmetry. eapply repeat_spec; eauto.
Qed.

Lemma contains_canonical (out : DataFrame) k :
  columns out = REQUIRED_COLS -> In k REQUIRED_COLS -> contains out k = true.
Proof.
  intros Hc Hk. unfold contains. rewrite Hc.
  apply existsb_exists. exists k. split; auto. apply String.eqb_refl.
Qed.

Lemma canonical_nonempty (out : DataFrame) : columns out = REQUIRED_COLS -> out <> [].
Proof. intros H ->. discriminate. Qed.

Lemma setitem_shape out k v :
  canonical_shape out -> In k REQUIRED_COLS -> canonical_shape (setitem out k v).
Proof.
  intros [Hc [n Hu]] Hk. unfold setitem.
  pose proof (columns_ensure_valid_index out v) as Hc'.
  destruct (uniform_ensure_valid_index n out v Hu) as [n' Hu'].
  set (out' := ensure_valid_index out v) in *.
  assert (Hne : out' <> []) by (apply canonical_nonempty; congruence).
  replace (match out' with [] => List.length v | _ :: _ => nrows out' end)
    with n' by (destruct out'; [congruence|]; symmetry; now apply uniform_nrows).
  split.
  - rewrite columns_set_column; [congruence|].
    apply contains_canonical; congruence.
  - exists n'. apply uniform_set_column; auto. apply reindex_length.
Qed.

Lemma setitem_col_other out k k' v :
  k <> k' -> Forall (eq None) (col out k') ->
  Forall (eq None) (col (setitem out k v) k').
Proof.
  intros Hk H. unfold setitem. rewrite col_set_column_other by assumption.
  unfold ensure_valid_index. destruct (_ && _)%bool; auto.
  apply col_blank_frame.
Qed.

Lemma setitem_optional_blank out k v :
  In k essentials -> optional_blank out -> optional_blank (setitem out k v).
Proof.
  intros Hk (H1 & H2 & H3).
  assert (k <> "inventory" /\ k <> "last_updated" /\ k <> "supported_disasters")
    as (N1 & N2 & N3)
    by (simpl in Hk; repeat split; intros ->;
        repeat (destruct Hk as [Hk|Hk]; try discriminate Hk); auto).
  repeat split; apply setitem_col_other; auto.
Qed.

Lemma essentials_required k : In k essentials -> In k REQUIRED_COLS.
Proof.
  simpl. intros H.
  repeat (destruct H as [<-|H]; [auto 10|]). contradiction.
Qed.

(** Storing what [df[cand]] gave either raises or is [setitem]. *)
Lemma setitem_item_ok out k v out' :
  setitem_item out k v = Ok out' -> exists s, out' = setitem out k s.
Proof.
  destruct v as [s|[|s [|]]]; simpl; intros H; inversion H; eauto.
Qed.

Lemma map_alias_ok df out t cs out' :
  map_alias df out t cs = Ok out' ->
  out' = out \/ exists s, out' = setitem out t s.
Proof.
  induction cs as [|cand cs IH]; simpl.
  - intros H; inversion H; auto.
  - destruct (contains df cand); auto.
    destruct (getitem df cand) as [v|e]; simpl; [|discriminate].
    intros H. right. eapply setitem_item_ok; eauto.
Qed.

Lemma setitem_collect_inv out k v :
  In k essentials -> collect_inv out -> collect_inv (setitem out k v).
Proof.
  intros Hk [H1 H2]. split.
  - apply setitem_shape; auto. now apply essentials_required.
  - now apply setitem_optional_blank.
Qed.

Lemma map_aliases_inv df al : forall out out',
  Forall (fun a => In (fst a) essentials) al ->
  map_aliases df out al = Ok out' ->
  collect_inv out -> collect_inv out'.
Proof.
  induction al as [|[t cs] al IH]; simpl; intros out out' Hal H Hinv.
  - inversion H; subst; auto.
  - inversion Hal; subst. simpl in *.
    destruct (map_alias df out t cs) as [out1|e] eqn:E; simpl in H; [|discriminate].
    apply (IH out1 out'); auto.
    destruct (map_alias_ok _ _ _ _ _ E) as [->|[s ->]]; auto.
    now apply setitem_collect_inv.
Qed.

Lemma ALIASES_targets : Forall (fun a => In (fst a) essentials) ALIASES.
Proof.
  unfold ALIASES, essentials.
  repeat apply Forall_cons; try apply Forall_nil; in_list.
Qed.

Lemma empty_frame_inv : collect_inv (empty_frame REQUIRED_COLS).
Proof.
  split; [split; [reflexivity|exists 0; repeat constructor]|].
  repeat split; constructor.
Qed.

(** The guard of step 2 is never true: [out] was created with all the
    required columns, so [col not in out] is false for each of them. *)
Lemma split_coordinates_skipped df (out : DataFrame) :
  columns out = REQUIRED_COLS -> split_coordinates df out = Ok out.
Proof.
  intros Hc. unfold split_coordinates.
  rewrite (contains_canonical out "latitude"), (contains_canonical out "longitude")
    by (auto; in_list).
  simpl. rewrite andb_false_r. reflexivity.
Qed.

(** For the same reason step 3 never adds a blank column. *)
Lemma fill_missing_skipped (out : DataFrame) :
  columns out = REQUIRED_COLS -> fill_missing out = out.
Proof.
  intros Hc. unfold fill_missing.
  assert (H : forall c, In c REQUIRED_COLS -> contains out c = true)
    by (intros; now apply contains_canonical).
  clear Hc. induction REQUIRED_COLS as [|c cs IH]; simpl; auto.
  rewrite H by now left. simpl. apply IH. intros; apply H; now right.
Qed.

Lemma tidy_contact_ok df out out' :
  tidy_contact df out = Ok out' ->
  out' = out \/ exists s, out' = setitem out "contact" s.
Proof.
  unfold tidy_contact. destruct (_ && _)%bool.
  - destruct (getitem df "mobile_number") as [v|e]; simpl; [|discriminate].
    intros H. right. eapply setitem_item_ok; eauto.
  - intros H; inversion H; auto.
Qed.

Lemma collect_columns_inv df out :
  collect_columns df = Ok out -> collect_inv out.
Proof.
  unfold collect_columns.
  destruct (map_aliases df (empty_frame REQUIRED_COLS) ALIASES) as [out1|e] eqn:E1;
    simpl; [|discriminate].
  assert (I1 : collect_inv out1)
    by (eapply map_aliases_inv; eauto using ALIASES_targets, empty_frame_inv).
  destruct I1 as [[Hc Hu] Hb].
  rewrite split_coordinates_skipped by assumption. simpl.
  rewrite fill_missing_skipped by assumption.
  intros H. destruct (tidy_contact_ok _ _ _ H) as [->|[s ->]].
  - split; [split|]; auto.
  - apply setitem_collect_inv; [in_list|split; [split|]; auto].
Qed.

Lemma Forall_none_nth (s : Series) i : Forall (eq None) s -> nth i s None = None.
Proof.
  intros H. revert i. induction H as [|x s Hx H IH]; intros [|i]; simpl; auto.
Qed.

(** Before any row is dropped, [out] is a frame of rows whose optional
    fields are all NaN. *)
Lemma collect_columns_records df out :
  collect_columns df = Ok out ->
  out = of_records (records out) /\ Forall optional_nan (records out).
Proof.
  intros H. destruct (collect_columns_inv _ _ H) as [[Hc [n Hu]] (B1 & B2 & B3)].
  split; [eapply canonical_frame_records; eauto|].
  unfold records. rewrite Forall_map. apply Forall_forall. intros i _.
  unfold optional_nan, record_at, cell_at; simpl.
  repeat split; now apply Forall_none_nth.
Qed.

(** [standardise_columns] on the rows: it keeps the rows of [out] that pass
    [keep], in order, and finishes each of them. *)
Lemma standardise_columns_records rowless df out :
  standardise_columns rowless df = Ok out ->
  exists l, collect_columns (normalise_header df) = Ok (of_records l)
            /\ Forall optional_nan l
            /\ out = of_records (map finish (filter keep l)).
Proof.
  unfold standardise_columns.
  destruct (collect_columns (normalise_header df)) as [out4|e] eqn:E; simpl;
    [|discriminate].
  destruct (valid_coordinates rowless _ out4) as [out5|e] eqn:V; simpl;
    [|discriminate].
  intros H; inversion H; subst; clear H.
  apply valid_coordinates_ok in V. subst out5.
  destruct (collect_columns_records _ _ E) as [Hr Ho].
  exists (records out4). rewrite <- Hr. repeat split; auto.
  rewrite Hr at 1. apply finishing_records.
Qed.

(** What [standardise_columns] returns whenever step 5 does not raise. *)
Lemma standardise_columns_steps rowless df out4 :
  collect_columns (normalise_header df) = Ok out4 ->
  valid_coordinates rowless
    (copied (normalise_header df) "latitude"
     || copied (normalise_header df) "longitude")%bool out4
  = Ok (select_valid out4) ->
  standardise_columns rowless df
  = Ok (fill_defaults (drop_incomplete (select_valid out4))).
Proof.
  intros E V. unfold standardise_columns. rewrite E. cbn [bind].
  rewrite V. reflexivity.
Qed.

(* ------------------------------------------------------------------ *)
(** * Example tables *)

Lemma sample_upload_clean rowless :
  standardise_columns rowless sample_upload = Ok sample_clean.
Proof. vm_compute. reflexivity. Qed.

(** An upload whose header has no alias gives the table without rows,
    whatever pandas makes of columns without rows: the columns step 5
    combines are the object columns [out] was created with. *)
Lemma unrecognised_upload_clean rowless :
  standardise_columns rowless unrecognised_upload = Ok (of_records []).
Proof. vm_compute. reflexivity. Qed.

(** An upload with a header and no row gives the table without rows when
    [&] returns a mask for its columns. *)
Lemma header_only_upload_clean :
  standardise_columns None header_only_upload = Ok (of_records []).
Proof. vm_compute. reflexivity. Qed.

(* ------------------------------------------------------------------ *)
(** * Properties of [standardise_columns] *)

Lemma good_coord_spec bound c :
  good_coord bound c = true ->
  exists s f, c = Some s /\ float_of_string s = Some f
              /\ in_range (- bound) bound f = true.
Proof.
  unfold good_coord. destruct c as [s|]; [|discriminate].
  destruct (float_of_string s) as [f|] eqn:E; [|discriminate].
  intros H. exists s, f. repeat split; auto.
Qed.

Lemma nonblank_spec c :
  notna c = true -> nonblank c = true -> exists s, c = Some s /\ s <> "".
Proof.
  destruct c as [s|]; [|discriminate]. unfold nonblank; simpl.
  intros _ H. exists s. split; auto. intros ->. discriminate.
Qed.

Lemma keep_spec r :
  keep r = true <->
  good_lat (r_latitude r) = true /\ good_lon (r_longitude r) = true
  /\ (notna (r_name r) = true /\ notna (r_type r) = true
      /\ notna (r_latitude r) = true /\ notna (r_longitude r) = true
      /\ notna (r_contact r) = true)
  /\ (nonblank (r_name r) = true /\ nonblank (r_type r) = true
      /\ nonblank (r_contact r) = true).
Proof.
  unfold keep, coordinates_ok, essentials_present, essentials_nonblank.
  rewrite !andb_true_iff. tauto.
Qed.

(** Every row of the result is a row of [out] that passed [keep], finished. *)
Lemma output_row rowless df out r :
  standardise_columns rowless df = Ok out -> In r (records out) ->
  exists r0, r = finish r0 /\ keep r0 = true /\ optional_nan r0.
Proof.
  intros H Hr. destruct (standardise_columns_records _ _ _ H) as (l & _ & Ho & ->).
  rewrite records_of_records in Hr. apply in_map_iff in Hr.
  destruct Hr as (r0 & <- & Hr0). apply filter_In in Hr0. destruct Hr0 as [Hin Hk].
  exists r0. repeat split; auto; rewrite Forall_forall in Ho; now apply Ho.
Qed.

(** C1. Every row of the table [standardise_columns] returns has a latitude
    that [float] parses to a number in [-90, 90], a longitude that parses to
    a number in [-180, 180], and a name, a type and a contact that are
    strings other than the empty string. *)
Theorem C1_output_rows_valid
        (rowless : option exn) (df out : DataFrame) (r : CanonicalRecord) :
  standardise_columns rowless df = Ok out ->
  In r (records out) ->
  (exists s f, r_latitude r = Some s /\ float_of_string s = Some f
               /\ in_range (-90) 90 f = true)
  /\ (exists s f, r_longitude r = Some s /\ float_of_string s = Some f
                  /\ in_range (-180) 180 f = true)
  /\ (exists s, r_name r = Some s /\ s <> "")
  /\ (exists s, r_type r = Some s /\ s <> "")
  /\ (exists s, r_contact r = Some s /\ s <> "").
Proof.
  intros H Hr. destruct (output_row _ _ _ _ H Hr) as (r0 & -> & Hk & _).
  apply keep_spec in Hk.
  destruct Hk as (Hlat & Hlon & (N1 & N2 & _ & _ & N3) & (B1 & B2 & B3)).
  simpl. repeat split.
  - exact (good_coord_spec 90 _ Hlat).
  - exact (good_coord_spec 180 _ Hlon).
  - now apply nonblank_spec.
  - now apply nonblank_spec.
  - now apply nonblank_spec.
Qed.

Lemma C1_witness :
  standardise_columns (Some TypeError) sample_upload = Ok sample_clean
  /\ In (mkRecord (Some "Camp A") (Some "shelter") (Some "12.9") (Some "77.6")
                  (Some "") (Some "") (Some "100") None)
        (records sample_clean)
  /\ (exists s f, Some "12.9" = Some s /\ float_of_string s = Some f
                  /\ in_range (-90) 90 f = true).
Proof.
  assert (H1 : standardise_columns (Some TypeError) sample_upload = Ok sample_clean)
    by (vm_compute; reflexivity).
  assert (H2 : In (mkRecord (Some "Camp A") (Some "shelter") (Some "12.9")
                            (Some "77.6") (Some "") (Some "") (Some "100") None)
                  (records sample_clean))
    by (vm_compute; left; reflexivity).
  split; [exact H1|]. split; [exact H2|].
  exact (proj1 (C1_output_rows_valid _ _ _ _ H1 H2)).
Defined.

(* ------------------------------------------------------------------ *)
(** * When [standardise_columns] returns and when it raises *)

Lemma find_filter {A : Type} (p : A -> bool) l :
  find p l = hd_error (filter p l).
Proof. induction l as [|x l IH]; simpl; auto. destruct (p x); auto. Qed.

Lemma getitem_unique (df : DataFrame) k :
  count_col df k = 1 -> getitem df k = Ok (ASeries (col df k)).
Proof.
  unfold count_col, getitem, col. rewrite find_filter.
  destruct (filter _ df) as [|c [|c' l]]; simpl; try discriminate; reflexivity.
Qed.

Lemma contains_count (df : DataFrame) k :
  contains df k = true -> count_col df k <> 0.
Proof.
  unfold contains, columns, count_col.
  induction df as [|[k0 s0] df IH]; simpl; [discriminate|].
  rewrite String.eqb_sym. destruct (String.eqb k0 k); simpl; auto.
Qed.

Lemma getitem_duplicate (df : DataFrame) (out : DataFrame) k t :
  contains df k = true -> count_col df k <> 1 ->
  (v <- getitem df k ;; setitem_item out t v) = Raise ValueError.
Proof.
  intros Hc Hn. apply contains_count in Hc. revert Hc Hn.
  unfold count_col, getitem.
  destruct (filter _ df) as [|c [|c' l]]; simpl; try congruence; reflexivity.
Qed.

Lemma find_some_true {A : Type} (p : A -> bool) l x :
  find p l = Some x -> p x = true.
Proof. intros H. now apply find_some in H. Qed.

(** Step 1 for one target: the selected alias is copied, or, when the
    header repeats it, [ValueError] is raised. *)
Lemma map_alias_spec df out t cs :
  map_alias df out t cs
  = match find (contains df) cs with
    | Some cand =>
        if Nat.eqb (count_col df cand) 1
        then Ok (setitem out t (col df cand))
        else Raise ValueError
    | None => Ok out
    end.
Proof.
  induction cs as [|cand cs IH]; simpl; auto.
  destruct (contains df cand) eqn:E; auto.
  destruct (Nat.eqb (count_col df cand) 1) eqn:E1.
  - apply Nat.eqb_eq in E1. rewrite getitem_unique by assumption. reflexivity.
  - apply Nat.eqb_neq in E1. now apply getitem_duplicate.
Qed.

Lemma map_alias_total df out t cs :
  alias_unique df cs = true -> exists out', map_alias df out t cs = Ok out'.
Proof.
  unfold alias_unique. rewrite map_alias_spec.
  destruct (find (contains df) cs); [intros ->|]; eauto.
Qed.

Lemma map_alias_raises df out t cs :
  alias_unique df cs = false -> map_alias df out t cs = Raise ValueError.
Proof.
  unfold alias_unique. rewrite map_alias_spec.
  destruct (find (contains df) cs); [intros ->|discriminate]; reflexivity.
Qed.

Lemma map_aliases_total df al : forall out,
  forallb (fun a => alias_unique df (snd a)) al = true ->
  exists out', map_aliases df out al = Ok out'.
Proof.
  induction al as [|[t cs] al IH]; simpl; intros out H; eauto.
  apply andb_true_iff in H. destruct H as [H1 H2].
  destruct (map_alias_total df out t cs H1) as [out1 ->]. simpl. auto.
Qed.

Lemma map_aliases_raises df al : forall out,
  forallb (fun a => alias_unique df (snd a)) al = false ->
  map_aliases df out al = Raise ValueError.
Proof.
  induction al as [|[t cs] al IH]; simpl; intros out H; [discriminate|].
  destruct (alias_unique df cs) eqn:E; simpl in H.
  - destruct (map_alias_total df out t cs E) as [out1 ->]. simpl. auto.
  - now rewrite map_alias_raises.
Qed.

(** [mobile_number] is the first alias of [contact]: when the header has
    it, it is the alias step 1 selected, and step 4 reads it again. *)
Lemma tidy_contact_total df out :
  selected_unique df = true -> exists out', tidy_contact df out = Ok out'.
Proof.
  intros H. unfold tidy_contact.
  destruct (contains df "mobile_number") eqn:E; simpl; eauto.
  destruct (all_eq (col out "contact") ""); eauto.
  unfold selected_unique, ALIASES in H. simpl in H.
  rewrite !andb_true_iff in H. destruct H as (_ & _ & _ & _ & H & _).
  unfold alias_unique in H. simpl in H. rewrite E in H.
  apply Nat.eqb_eq in H. rewrite getitem_unique by assumption. simpl. eauto.
Qed.

Lemma collect_columns_total df :
  selected_unique df = true -> exists out, collect_columns df = Ok out.
Proof.
  intros H. unfold collect_columns.
  destruct (map_aliases_total df ALIASES (empty_frame REQUIRED_COLS) H) as [out1 E].
  rewrite E. simpl.
  assert (Hc : columns out1 = REQUIRED_COLS).
  { eapply map_aliases_inv; eauto using ALIASES_targets, empty_frame_inv. }
  rewrite split_coordinates_skipped by assumption. simpl.
  now apply tidy_contact_total.
Qed.

Lemma collect_columns_raises df :
  selected_unique df = false -> collect_columns df = Raise ValueError.
Proof.
  intros H. unfold collect_columns.
  rewrite (map_aliases_raises df ALIASES _ H). reflexivity.
Qed.

(** A repeated selected alias always raises ValueError. *)
Lemma standardise_columns_raises rowless df :
  selected_unique (normalise_header df) = false ->
  standardise_columns rowless df = Raise ValueError.
Proof.
  intros H. unfold standardise_columns.
  now rewrite collect_columns_raises.
Qed.

(* ------------------------------------------------------------------ *)
(** * Normalising a table that is already canonical *)


Section Recopy.
Variable l : list CanonicalRecord.








End Recopy.

Lemma filter_all {A : Type} (p : A -> bool) l :
  Forall (fun x => p x = true) l -> filter p l = l.
Proof. induction 1 as [|x l Hx H IH]; simpl; auto. now rewrite Hx, IH. Qed.













(* ------------------------------------------------------------------ *)
(** * The combined coordinate column and the optional columns *)

(** What the split of step 2 computes on that column, were it reached. *)
Lemma split_of_combined_cell :
  str_split_expand "," [Some "12.9,77.6"] = [[Some "12.9"]; [Some "77.6"]].
Proof. reflexivity. Qed.

(** C4. The code guards the split with ["latitude" not in out], which is
    false for the frame created with all required columns: the split is
    skipped, latitude and longitude stay NaN, and the row is dropped
    instead of coming out with latitude 12.9 and longitude 77.6. *)
Theorem C4_combined_column_not_split (rowless : option exn) :
  contains (normalise_header combined_upload) "location_coordinates" = true
  /\ collect_columns (normalise_header combined_upload)
     = Ok (of_records [mkRecord (Some "Camp A") (Some "shelter") None None
                                None None (Some "100") None])
  /\ split_coordinates
       (normalise_header combined_upload)
       (of_records [mkRecord (Some "Camp A") (Some "shelter") None None
                             None None (Some "100") None])
     = Ok (of_records [mkRecord (Some "Camp A") (Some "shelter") None None
                                None None (Some "100") None])
  /\ standardise_columns rowless combined_upload = Ok (of_records []).
Proof. repeat split; vm_compute; reflexivity. Qed.

(** C5. On a surviving row whose [supported_disasters] is missing or
    empty the code leaves NaN in that field, not "General": the column is
    never copied nor blanked, and [replace] does not touch NaN. *)
Theorem C5_supported_disasters_left_nan (rowless : option exn) :
  standardise_columns rowless plain_upload
  = Ok (of_records [mkRecord (Some "Camp A") (Some "shelter") (Some "12.9")
                             (Some "77.6") (Some "") (Some "") (Some "100") None])
  /\ standardise_columns rowless empty_tag_upload
     = standardise_columns rowless plain_upload.
Proof. split; vm_compute; reflexivity. Qed.

Lemma normalise_header_without_optional df :
  normalise_header (without_optional df) = drop_optional (normalise_header df).
Proof.
  unfold normalise_header, without_optional, drop_optional, optional_name.
  induction df as [|[k s] df IH]; cbn [map filter fst snd]; auto.
  destruct (is_optional (normalise k)); cbn [negb map fst snd]; now rewrite IH.
Qed.

Lemma filter_drop_optional (df : DataFrame) k :
  is_optional k = false ->
  filter (fun c => String.eqb (fst c) k) (drop_optional df)
  = filter (fun c => String.eqb (fst c) k) df.
Proof.
  intros Hk. unfold drop_optional.
  induction df as [|[k0 s0] df IH]; simpl; auto.
  destruct (is_optional k0) eqn:E; simpl.
  - destruct (String.eqb k0 k) eqn:E0; auto.
    apply String.eqb_eq in E0. congruence.
  - now rewrite IH.
Qed.

Lemma getitem_drop_optional df k :
  is_optional k = false -> getitem (drop_optional df) k = getitem df k.
Proof. intros H. unfold getitem. now rewrite filter_drop_optional. Qed.

Lemma contains_filter (df : DataFrame) k :
  contains df k
  = negb (Nat.eqb (List.length (filter (fun c => String.eqb (fst c) k) df)) 0).
Proof.
  unfold contains, columns. induction df as [|[k0 s0] df IH]; simpl; auto.
  rewrite String.eqb_sym. destruct (String.eqb k0 k); simpl; auto.
Qed.

Lemma contains_drop_optional df k :
  is_optional k = false -> contains (drop_optional df) k = contains df k.
Proof. intros H. rewrite !contains_filter. now rewrite filter_drop_optional. Qed.

Lemma map_alias_drop_optional df out t cs :
  forallb (fun c => negb (is_optional c)) cs = true ->
  map_alias (drop_optional df) out t cs = map_alias df out t cs.
Proof.
  induction cs as [|cand cs IH]; simpl; auto.
  intros H. apply andb_true_iff in H. destruct H as [H1 H2].
  apply negb_true_iff in H1.
  rewrite contains_drop_optional, getitem_drop_optional by assumption.
  destruct (contains df cand); auto.
Qed.

Lemma map_aliases_drop_optional df al : forall out,
  forallb (fun a => forallb (fun c => negb (is_optional c)) (snd a)) al = true ->
  map_aliases (drop_optional df) out al = map_aliases df out al.
Proof.
  induction al as [|[t cs] al IH]; simpl; auto.
  intros out H. apply andb_true_iff in H. destruct H as [H1 H2].
  rewrite map_alias_drop_optional by assumption.
  destruct (map_alias df out t cs); simpl; auto.
Qed.

(** Steps 1 to 4 read [df] only through column names that are not
    optional ones. *)
Lemma collect_columns_drop_optional df :
  collect_columns (drop_optional df) = collect_columns df.
Proof.
  unfold collect_columns.
  rewrite map_aliases_drop_optional by reflexivity.
  destruct (map_aliases df _ _) as [out|e]; simpl; auto.
  unfold split_coordinates, tidy_contact.
  rewrite !contains_drop_optional, !getitem_drop_optional by reflexivity.
  reflexivity.
Qed.

Lemma copied_drop_optional df t :
  forallb (fun c => negb (is_optional c)) (candidates_of t) = true ->
  copied (drop_optional df) t = copied df t.
Proof.
  unfold copied. induction (candidates_of t) as [|c cs IH]; simpl; auto.
  intros H. apply andb_true_iff in H. destruct H as [H1 H2].
  apply negb_true_iff in H1.
  now rewrite contains_drop_optional, IH.
Qed.

Lemma standardise_columns_without_optional rowless df :
  standardise_columns rowless (without_optional df) = standardise_columns rowless df.
Proof.
  unfold standardise_columns.
  rewrite normalise_header_without_optional, collect_columns_drop_optional.
  now rewrite !copied_drop_optional by reflexivity.
Qed.

(** C10. No alias maps to [inventory], [last_updated] or
    [supported_disasters]: in every row of the result the first two are the
    empty string (and the third is NaN), whatever the input holds, and two
    tables that differ only in columns with these names give the same
    result. *)
Theorem C10_optional_columns_ignored
        (rowless : option exn) (df1 df2 : DataFrame) :
  (forall out r,
      standardise_columns rowless df1 = Ok out -> In r (records out) ->
      r_inventory r = Some "" /\ r_last_updated r = Some ""
      /\ r_supported_disasters r = None)
  /\ (without_optional df1 = without_optional df2 ->
      standardise_columns rowless df1 = standardise_columns rowless df2).
Proof.
  split.
  - intros out r H Hr.
    destruct (output_row _ _ _ _ H Hr) as (r0 & -> & _ & (H1 & H2 & H3)).
    simpl. rewrite H1, H2, H3. auto.
  - intros H.
    rewrite <- (standardise_columns_without_optional rowless df1),
      <- (standardise_columns_without_optional rowless df2).
    now rewrite H.
Qed.

Lemma C10_witness :
  standardise_columns (Some TypeError) empty_tag_upload = Ok plain_clean
  /\ In (mkRecord (Some "Camp A") (Some "shelter") (Some "12.9")
                  (Some "77.6") (Some "") (Some "") (Some "100") None)
        (records plain_clean)
  /\ without_optional empty_tag_upload = without_optional plain_upload
  /\ (Some "" = Some "" /\ Some "" = Some "" /\ @None string = None)
  /\ standardise_columns (Some TypeError) empty_tag_upload
     = standardise_columns (Some TypeError) plain_upload.
Proof.
  assert (H1 : standardise_columns (Some TypeError) empty_tag_upload = Ok plain_clean)
    by (vm_compute; reflexivity).
  assert (H2 : In (mkRecord (Some "Camp A") (Some "shelter") (Some "12.9")
                            (Some "77.6") (Some "") (Some "") (Some "100") None)
                  (records plain_clean))
    by (vm_compute; left; reflexivity).
  assert (H3 : without_optional empty_tag_upload = without_optional plain_upload)
    by (vm_compute; reflexivity).
  split; [exact H1|]. split; [exact H2|]. split; [exact H3|].
  split.
  - exact (proj1 (C10_optional_columns_ignored
                    (Some TypeError) empty_tag_upload plain_upload)
                 _ _ H1 H2).
  - exact (proj2 (C10_optional_columns_ignored
                    (Some TypeError) empty_tag_upload plain_upload) H3).
Defined.

(* ------------------------------------------------------------------ *)
(** * The essential-field filter *)

(** C6, as stated, fails: a name made of whitespace only is kept. *)
Lemma C6_counterexample :
  strip " " = ""
  /\ standardise_columns None blank_name_upload
     = Ok (of_records [mkRecord (Some " ") (Some "shelter") (Some "12.9")
                                (Some "77.6") (Some "") (Some "") (Some "100") None])
  /\ standardise_columns (Some TypeError) blank_name_upload
     = standardise_columns None blank_name_upload.
Proof. repeat split; vm_compute; reflexivity. Qed.

(** ** A string [float] accepts is not blank *)

Lemma space_char_facts c :
  isspace c = true ->
  is_digit c = false
  /\ N.eqb (code c) 95 = false /\ N.eqb (code c) 45 = false
  /\ N.eqb (code c) 43 = false /\ N.eqb (code c) 46 = false
  /\ Ascii.eqb (lower_char c) "i" = false
  /\ Ascii.eqb (lower_char c) "n" = false.
Proof.
  destruct c as [[] [] [] [] [] [] [] []]; vm_compute; intros H;
    try discriminate H; repeat split; reflexivity.
Qed.

Lemma lstrip_head s c s' : lstrip s = String c s' -> isspace c = false.
Proof.
  induction s as [|c0 s IH]; simpl; [discriminate|].
  destruct (isspace c0) eqn:E; auto. intros H; inversion H; subst; auto.
Qed.

Lemma lstrip_empty s :
  lstrip s = "" -> forallb isspace (list_ascii_of_string s) = true.
Proof.
  induction s as [|c s IH]; simpl; auto.
  destruct (isspace c); [auto|discriminate].
Qed.

Lemma rstrip_head c s : rstrip (String c s) = "" -> isspace c = true.
Proof.
  simpl. destruct (rstrip s); [|discriminate].
  destruct (isspace c); [auto|discriminate].
Qed.

Lemma strip_empty s :
  strip s = "" -> forallb isspace (list_ascii_of_string s) = true.
Proof.
  unfold strip. intros H. apply lstrip_empty.
  destruct (lstrip s) as [|c s'] eqn:E; auto.
  apply rstrip_head in H. apply lstrip_head in E. congruence.
Qed.

Lemma drop_underscores_spaces l : forall b,
  forallb isspace l = true -> drop_underscores b l = Some l.
Proof.
  induction l as [|c l IH]; simpl; auto. intros b H.
  apply andb_true_iff in H. destruct H as [Hc Hl].
  destruct (space_char_facts c Hc) as (_ & -> & _).
  now rewrite IH.
Qed.

Lemma lstrip_float_spaces l :
  forallb isspace l = true -> forallb isspace (lstrip_float l) = true.
Proof.
  induction l as [|c l IH]; simpl; auto. intros H.
  destruct (isspace_float c); simpl; auto.
  apply andb_true_iff in H. now apply IH.
Qed.

Lemma forallb_rev {A : Type} (p : A -> bool) l :
  forallb p l = true -> forallb p (rev l) = true.
Proof.
  rewrite !forallb_forall. intros H x Hx. apply H. now apply in_rev.
Qed.

Lemma strip_float_spaces l :
  forallb isspace l = true -> forallb isspace (strip_float l) = true.
Proof.
  intros H. unfold strip_float.
  now apply forallb_rev, lstrip_float_spaces, forallb_rev, lstrip_float_spaces.
Qed.

Lemma float_of_blank s :
  forallb isspace (list_ascii_of_string s) = true -> float_of_string s = None.
Proof.
  intros H. unfold float_of_string.
  rewrite drop_underscores_spaces by assumption.
  apply strip_float_spaces in H.
  destruct (strip_float (list_ascii_of_string s)) as [|c l]; [reflexivity|].
  simpl in H. apply andb_true_iff in H. destruct H as [Hc _].
  destruct (space_char_facts c Hc) as (Hd & _ & H45 & H43 & H46 & Hi & Hn).
  unfold take_sign. rewrite H45, H43.
  unfold lower_list, parse_decimal. simpl. rewrite Hd, H46, Hi, Hn. simpl.
  reflexivity.
Qed.

Lemma float_not_blank s f : float_of_string s = Some f -> strip s <> "".
Proof.
  intros H E. apply strip_empty, float_of_blank in E. congruence.
Qed.

Lemma good_coord_not_blank bound c :
  good_coord bound c = true -> exists s, c = Some s /\ strip s <> "".
Proof.
  intros H. destruct (good_coord_spec _ _ H) as (s & f & -> & Hf & _).
  exists s. split; auto. now apply (float_not_blank s f).
Qed.

(** C6, amended. A row of the input is kept only if, in the columns that
    alias resolution gave to [out], its name, type, latitude, longitude and
    contact are all present, its name, type and contact differ from the
    empty string (compared as they stand, without trimming), and its
    latitude and longitude are valid coordinates, hence non-empty after
    trimming. *)
Theorem C6_kept_only_if_essentials
        (rowless : option exn) (df out : DataFrame) (r : CanonicalRecord) :
  standardise_columns rowless df = Ok out ->
  In r (records out) ->
  exists l r0,
    collect_columns (normalise_header df) = Ok (of_records l)
    /\ In r0 l /\ r = finish r0
    /\ (exists s, r_name r0 = Some s /\ s <> "")
    /\ (exists s, r_type r0 = Some s /\ s <> "")
    /\ (exists s, r_contact r0 = Some s /\ s <> "")
    /\ (exists s, r_latitude r0 = Some s /\ strip s <> ""
                  /\ good_lat (Some s) = true)
    /\ (exists s, r_longitude r0 = Some s /\ strip s <> ""
                  /\ good_lon (Some s) = true).
Proof.
  intros H Hr. destruct (standardise_columns_records _ _ _ H) as (l & E & _ & ->).
  rewrite records_of_records in Hr. apply in_map_iff in Hr.
  destruct Hr as (r0 & <- & Hr0). apply filter_In in Hr0. destruct Hr0 as [Hin Hk].
  exists l, r0. apply keep_spec in Hk.
  destruct Hk as (Hlat & Hlon & (N1 & N2 & _ & _ & N3) & (B1 & B2 & B3)).
  repeat split; auto; try (now apply nonblank_spec).
  - destruct (good_coord_not_blank _ _ Hlat) as (s & Hs & Hb).
    exists s. rewrite <- Hs. auto.
  - destruct (good_coord_not_blank _ _ Hlon) as (s & Hs & Hb).
    exists s. rewrite <- Hs. auto.
Qed.

Lemma C6_witness :
  standardise_columns (Some TypeError) sample_upload = Ok sample_clean
  /\ In (mkRecord (Some " ") (Some "clinic") (Some "45") (Some "-180")
                  (Some "") (Some "") (Some "101") None)
        (records sample_clean)
  /\ exists l r0,
       collect_columns (normalise_header sample_upload) = Ok (of_records l)
       /\ In r0 l
       /\ mkRecord (Some " ") (Some "clinic") (Some "45") (Some "-180")
                   (Some "") (Some "") (Some "101") None = finish r0
       /\ (exists s, r_name r0 = Some s /\ s <> "")
       /\ (exists s, r_type r0 = Some s /\ s <> "")
       /\ (exists s, r_contact r0 = Some s /\ s <> "")
       /\ (exists s, r_latitude r0 = Some s /\ strip s <> ""
                     /\ good_lat (Some s) = true)
       /\ (exists s, r_longitude r0 = Some s /\ strip s <> ""
                     /\ good_lon (Some s) = true).
Proof.
  assert (H1 : standardise_columns (Some TypeError) sample_upload = Ok sample_clean)
    by (vm_compute; reflexivity).
  assert (H2 : In (mkRecord (Some " ") (Some "clinic") (Some "45") (Some "-180")
                            (Some "") (Some "") (Some "101") None)
                  (records sample_clean))
    by (vm_compute; right; left; reflexivity).
  split; [exact H1|]. split; [exact H2|].
  exact (C6_kept_only_if_essentials _ _ _ _ H1 H2).
Defined.

(* ------------------------------------------------------------------ *)
(** * Alias resolution of the coordinate columns *)

Lemma bind_ok {A B : Type} (r : result A) (k : A -> result B) y :
  (x <- r ;; k x) = Ok y -> exists x, r = Ok x /\ k x = Ok y.
Proof. destruct r as [x|e]; simpl; [eauto|discriminate]. Qed.

Lemma contains_In (df : DataFrame) k :
  contains df k = true -> exists s, In (k, s) df /\ col df k = s.
Proof.
  unfold contains, columns, col.
  induction df as [|[k0 s0] df IH]; simpl; [discriminate|].
  rewrite String.eqb_sym. destruct (String.eqb k0 k) eqn:E; simpl.
  - apply String.eqb_eq in E. subst. eauto.
  - intros H. destruct (IH H) as (s & Hin & Hs). eauto.
Qed.

Lemma col_length n (df : DataFrame) k :
  uniform n df -> contains df k = true -> List.length (col df k) = n.
Proof.
  intros Hu Hc. destruct (contains_In _ _ Hc) as (s & Hin & ->).
  unfold uniform in Hu. rewrite Forall_forall in Hu. exact (Hu _ Hin).
Qed.

Lemma uniform_normalise_header n df :
  uniform n df -> uniform n (normalise_header df).
Proof.
  unfold uniform, normalise_header. rewrite Forall_map. auto.
Qed.

Lemma setitem_filling n out k (v : Series) :
  filling n out -> In k REQUIRED_COLS -> List.length v = n ->
  columns (setitem out k v) = REQUIRED_COLS
  /\ uniform n (setitem out k v)
  /\ col (setitem out k v) k = v
  /\ (forall k', k <> k' -> uniform n out ->
                 col (setitem out k v) k' = col out k').
Proof.
  intros [Hc Hu] Hk Hv.
  assert (Hne : out <> []) by now apply canonical_nonempty.
  assert (Hin : contains out k = true) by now apply contains_canonical.
  assert (E : uniform n out -> setitem out k v = set_column out k v)
    by (intros U; apply setitem_same_len; congruence).
  assert (R : uniform n out ->
              columns (set_column out k v) = REQUIRED_COLS
              /\ uniform n (set_column out k v)
              /\ col (set_column out k v) k = v
              /\ (forall k', k <> k' -> uniform n out ->
                             col (set_column out k v) k' = col out k')).
  { intros U. rewrite columns_set_column by assumption.
    repeat split; auto using uniform_set_column, col_set_column_same.
    intros. now apply col_set_column_other. }
  destruct Hu as [U0|Un]; [|rewrite (E Un); auto].
  destruct n as [|n']; [rewrite (E U0); auto|].
  rewrite setitem_first by assumption. rewrite Hv.
  set (blank := map _ out).
  assert (Hcb : columns blank = REQUIRED_COLS)
    by (unfold blank, columns; rewrite map_map; exact Hc).
  assert (Hub : uniform (S n') blank).
  { unfold blank, uniform. rewrite Forall_map. apply Forall_forall.
    intros c _. simpl. f_equal. apply repeat_length. }
  rewrite columns_set_column by now apply contains_canonical.
  repeat split; auto using uniform_set_column, col_set_column_same.
  intros k' _ Un. exfalso.
  destruct out as [|[k0 s0] out]; [congruence|].
  inversion U0; inversion Un; subst; simpl in *. congruence.
Qed.

(** One target of step 1 on a table of [n] rows. *)
Lemma map_alias_filling n df out t cs out' :
  uniform n df -> filling n out -> In t REQUIRED_COLS ->
  map_alias df out t cs = Ok out' ->
  (out' = out /\ find (contains df) cs = None)
  \/ (exists cand, find (contains df) cs = Some cand
                   /\ count_col df cand = 1
                   /\ out' = setitem out t (col df cand)
                   /\ uniform n out'
                   /\ columns out' = REQUIRED_COLS
                   /\ col out' t = col df cand
                   /\ forall k', t <> k' -> uniform n out ->
                                 col out' k' = col out k').
Proof.
  intros Hu Hf Ht. rewrite map_alias_spec.
  destruct (find (contains df) cs) as [cand|] eqn:E.
  - destruct (Nat.eqb (count_col df cand) 1) eqn:E1; [|discriminate].
    intros H; inversion H; subst; clear H. right. exists cand.
    apply Nat.eqb_eq in E1.
    assert (Hl : List.length (col df cand) = n)
      by (apply (col_length n); auto; now apply find_some_true in E).
    destruct (setitem_filling n out t _ Hf Ht Hl) as (A & B & C & D).
    repeat split; auto.
  - intros H; inversion H; subst. auto.
Qed.

Lemma filling_step n df out t cs out' :
  uniform n df -> filling n out -> In t REQUIRED_COLS ->
  map_alias df out t cs = Ok out' ->
  filling n out'
  /\ (uniform n out -> uniform n out'
                       /\ forall k', t <> k' -> col out' k' = col out k').
Proof.
  intros Hu Hf Ht H.
  destruct (map_alias_filling n df out t cs out' Hu Hf Ht H)
    as [[-> _]|(cand & _ & _ & _ & U & C & _ & K)].
  - split; auto.
  - split; [split; auto|]. intros Un. split; auto.
Qed.

Lemma tidy_contact_cases df out out' :
  tidy_contact df out = Ok out' ->
  out' = out
  \/ (contains df "mobile_number" = true
      /\ out' = setitem out "contact" (col df "mobile_number")).
Proof.
  unfold tidy_contact.
  destruct (contains df "mobile_number") eqn:E; simpl;
    [|intros H; inversion H; auto].
  destruct (all_eq (col out "contact") ""); [|intros H; inversion H; auto].
  destruct (Nat.eqb (count_col df "mobile_number") 1) eqn:E1.
  - apply Nat.eqb_eq in E1. rewrite getitem_unique by assumption. simpl.
    intros H; inversion H; auto.
  - apply Nat.eqb_neq in E1. rewrite getitem_duplicate by assumption.
    discriminate.
Qed.

Lemma filling_empty n : filling n (empty_frame REQUIRED_COLS).
Proof. split; [reflexivity|left; repeat constructor]. Qed.

(** C8, as stated, fails: with a [lon] column in the header the longitude
    is taken from it and not from [Long]; with the latitude alias repeated
    (as in [repeated_header_upload]) nothing is mapped at all. *)
Lemma C8_counterexample :
  standardise_columns None lon_and_long_upload
  = Ok (of_records [mkRecord (Some "Camp A") (Some "shelter") (Some "12.9")
                             (Some "9") (Some "") (Some "") (Some "100") None])
  /\ standardise_columns (Some TypeError) lon_and_long_upload
     = standardise_columns None lon_and_long_upload
  /\ contains (normalise_header repeated_header_upload) "lat" = true
  /\ contains (normalise_header repeated_header_upload) "long" = true
  /\ collect_columns (normalise_header repeated_header_upload) = Raise ValueError.
Proof. repeat split; vm_compute; reflexivity. Qed.

(** C8, amended. If the header, once normalised, has a column [lat] and a
    column [long] and no column [lon], and alias resolution returns (no
    selected alias is repeated in the header), then the latitude and the
    longitude of [out] are those two columns, each the only one of its
    name; the combined-coordinate split is skipped, here as on every
    frame with the canonical columns. *)
Theorem C8_lat_long_resolved_by_alias (df out : DataFrame) (n : nat) :
  uniform n df ->
  contains (normalise_header df) "lat" = true ->
  contains (normalise_header df) "long" = true ->
  contains (normalise_header df) "lon" = false ->
  collect_columns (normalise_header df) = Ok out ->
  col out "latitude" = col (normalise_header df) "lat"
  /\ col out "longitude" = col (normalise_header df) "long"
  /\ count_col (normalise_header df) "lat" = 1
  /\ count_col (normalise_header df) "long" = 1
  /\ (forall out1, columns out1 = REQUIRED_COLS ->
                   split_coordinates (normalise_header df) out1 = Ok out1).
Proof.
  intros Hu Hlat Hlong Hlon H.
  apply uniform_normalise_header in Hu.
  set (df' := normalise_header df) in *.
  unfold collect_columns in H.
  apply bind_ok in H. destruct H as (out1 & HM & H).
  unfold ALIASES in HM. cbn [map_aliases] in HM.
  apply bind_ok in HM. destruct HM as (oa & Ha & HM).
  apply bind_ok in HM. destruct HM as (ob & Hb & HM).
  apply bind_ok in HM. destruct HM as (oc & Hc & HM).
  apply bind_ok in HM. destruct HM as (od & Hd & HM).
  apply bind_ok in HM. destruct HM as (oe & He & HM).
  inversion HM; subst out1; clear HM.
  pose proof (filling_empty n) as F0.
  destruct (filling_step n df' _ "name" _ _ Hu F0 ltac:(in_list) Ha) as [Fa _].
  destruct (filling_step n df' _ "type" _ _ Hu Fa ltac:(in_list) Hb) as [Fb _].
  destruct (map_alias_filling n df' _ "latitude" _ _ Hu Fb ltac:(in_list) Hc)
    as [[_ Hnone]|(c1 & Hf1 & Hn1 & _ & Uc & Cc & Lc & _)];
    [simpl in Hnone; rewrite Hlat in Hnone; discriminate|].
  simpl in Hf1. rewrite Hlat in Hf1. inversion Hf1; subst c1; clear Hf1.
  assert (Fc : filling n oc) by (split; auto).
  destruct (map_alias_filling n df' _ "longitude" _ _ Hu Fc ltac:(in_list) Hd)
    as [[_ Hnone]|(c2 & Hf2 & Hn2 & _ & Ud & Cd & Ld & Kd)];
    [simpl in Hnone; rewrite Hlon, Hlong in Hnone; discriminate|].
  simpl in Hf2. rewrite Hlon, Hlong in Hf2. inversion Hf2; subst c2; clear Hf2.
  assert (Fd : filling n od) by (split; auto).
  destruct (filling_step n df' _ "contact" _ _ Hu Fd ltac:(in_list) He) as [Fe Ke].
  destruct (Ke Ud) as [Ue Ke'].
  rewrite split_coordinates_skipped in H by apply Fe. simpl in H.
  rewrite fill_missing_skipped in H by apply Fe.
  assert (Hlat4 : col oe "latitude" = col df' "lat")
    by (rewrite Ke' by discriminate; rewrite Kd by (auto; discriminate); exact Lc).
  assert (Hlon4 : col oe "longitude" = col df' "long")
    by (rewrite Ke' by discriminate; exact Ld).
  assert (Hout : col out "latitude" = col oe "latitude"
                 /\ col out "longitude" = col oe "longitude").
  { destruct (tidy_contact_cases _ _ _ H) as [->|[Hm ->]]; [auto|].
    assert (Hl : List.length (col df' "mobile_number") = n)
      by now apply (col_length n).
    destruct (setitem_filling n oe "contact" _ Fe ltac:(in_list) Hl)
      as (_ & _ & _ & K).
    split; apply K; auto; discriminate. }
  destruct Hout as [-> ->].
  repeat split; auto.
  intros out1 Hc1. now apply split_coordinates_skipped.
Qed.

Lemma C8_witness :
  uniform 5 sample_upload
  /\ contains (normalise_header sample_upload) "lat" = true
  /\ contains (normalise_header sample_upload) "long" = true
  /\ contains (normalise_header sample_upload) "lon" = false
  /\ col (of_records
            [mkRecord (Some "Camp A") (Some "shelter") (Some "12.9") (Some "77.6")
                      None None (Some "100") None;
             mkRecord (Some " ") (Some "clinic") (Some "45") (Some "-180")
                      None None (Some "101") None;
             mkRecord (Some "Camp C") (Some "clinic") (Some "91") (Some "0")
                      None None (Some "102") None;
             mkRecord None (Some "clinic") (Some "1") (Some "1")
                      None None (Some "103") None;
             mkRecord (Some "Camp E") (Some "") (Some "2") (Some "2")
                      None None (Some "104") None])
         "latitude"
     = col (normalise_header sample_upload) "lat".
Proof.
  assert (U : uniform 5 sample_upload) by (repeat constructor).
  assert (H1 : contains (normalise_header sample_upload) "lat" = true)
    by (vm_compute; reflexivity).
  assert (H2 : contains (normalise_header sample_upload) "long" = true)
    by (vm_compute; reflexivity).
  assert (H3 : contains (normalise_header sample_upload) "lon" = false)
    by (vm_compute; reflexivity).
  split; [exact U|]. split; [exact H1|]. split; [exact H2|]. split; [exact H3|].
  refine (proj1 (C8_lat_long_resolved_by_alias sample_upload _ 5 U H1 H2 H3 _)).
  vm_compute; reflexivity.
Defined.

(* ------------------------------------------------------------------ *)
(** * Alias resolution over a table of [n] rows *)

(** Alias resolution over a table of [n] rows, for any list of targets. *)
Lemma map_aliases_filling n df al : forall out out',
  uniform n df -> filling n out ->
  Forall (fun a => In (fst a) REQUIRED_COLS) al ->
  NoDup (map fst al) ->
  map_aliases df out al = Ok out' ->
  filling n out'
  /\ (uniform n out ->
      uniform n out' /\ forall k, ~ In k (map fst al) -> col out' k = col out k)
  /\ (forall t cs cand,
        In (t, cs) al -> find (contains df) cs = Some cand ->
        uniform n out' /\ col out' t = col df cand /\ count_col df cand = 1).
Proof.
  induction al as [|[t0 cs0] al IH]; intros out out' Hu Hf Hal Hnd H.
  - simpl in H. inversion H; subst. split; [exact Hf|]. split.
    + intros Un. split; auto.
    + intros t cs cand [].
  - cbn [map_aliases] in H. apply bind_ok in H. destruct H as (out1 & H0 & H1).
    inversion Hal as [|? ? Ht0 Hal']; subst. simpl in Ht0.
    cbn [map fst] in Hnd. inversion Hnd as [|? ? Hnin Hnd']; subst.
    destruct (map_alias_filling n df out t0 cs0 out1 Hu Hf Ht0 H0)
      as [[-> Hnone]|(c0 & Hf0 & Hn0 & _ & U1 & C1 & L1 & K1)].
    + destruct (IH out out' Hu Hf Hal' Hnd' H1) as (F' & P2 & P3).
      split; [exact F'|]. split.
      * intros Un. destruct (P2 Un) as [Un' K]. split; auto.
        intros k Hk. apply K. intros Hin. apply Hk. now right.
      * intros t cs cand [E|Hin] Hfind.
        -- inversion E; subst. congruence.
        -- eapply P3; eauto.
    + assert (F1 : filling n out1) by (split; auto).
      destruct (IH out1 out' Hu F1 Hal' Hnd' H1) as (F' & P2 & P3).
      destruct (P2 U1) as [Un' K].
      split; [exact F'|]. split.
      * intros Un. split; auto. intros k Hk.
        rewrite K by (intros Hin; apply Hk; now right).
        apply K1; auto. intros ->. apply Hk. now left.
      * intros t cs cand [E|Hin] Hfind.
        -- inversion E; subst. rewrite Hf0 in Hfind. inversion Hfind; subst.
           split; auto. split; auto. rewrite K by assumption. exact L1.
        -- eapply P3; eauto.
Qed.

Lemma ALIASES_required : Forall (fun a => In (fst a) REQUIRED_COLS) ALIASES.
Proof.
  unfold ALIASES. repeat apply Forall_cons; try apply Forall_nil; in_list.
Qed.

Lemma ALIASES_nodup : NoDup (map fst ALIASES).
Proof.
  unfold ALIASES. cbn [map fst].
  repeat (apply NoDup_cons;
          [simpl; intros H;
           repeat (destruct H as [H|H]; [discriminate H|]); exact H|]).
  apply NoDup_nil.
Qed.

Lemma set_column_col {A : Type} (df : Frame A) k :
  contains df k = true -> set_column df k (col df k) = df.
Proof.
  unfold contains, columns, col.
  induction df as [|[k0 s0] df IH]; simpl; [discriminate|].
  rewrite String.eqb_sym. destruct (String.eqb k0 k) eqn:E; simpl.
  - intros _. apply String.eqb_eq in E. now subst.
  - intros H. now rewrite IH.
Qed.

(** Step 4 leaves the frame that alias resolution returned as it is. *)
Lemma tidy_contact_noop n df out1 :
  uniform n df ->
  map_aliases df (empty_frame REQUIRED_COLS) ALIASES = Ok out1 ->
  tidy_contact df out1 = Ok out1.
Proof.
  intros Hu HM. unfold tidy_contact.
  destruct (contains df "mobile_number") eqn:E; [|reflexivity].
  destruct (map_aliases_filling n df ALIASES _ _ Hu (filling_empty n)
              ALIASES_required ALIASES_nodup HM) as ([Hc _] & _ & P3).
  destruct (P3 "contact"
               ["mobile_number"; "mobile"; "telephone"; "phone"; "contact";
                "phone_no"; "phone number"]
               "mobile_number")
    as (U & L & N); [in_list|simpl; now rewrite E|].
  destruct (all_eq (col out1 "contact") ""); [|reflexivity].
  simpl. rewrite getitem_unique by assumption. simpl. f_equal.
  rewrite setitem_same_len.
  - rewrite <- L. apply set_column_col. apply contains_canonical; auto. in_list.
  - now apply canonical_nonempty.
  - rewrite (col_length n df) by assumption. exact U.
Qed.

(** Steps 2, 3 and 4 change nothing on a table. *)
Lemma collect_columns_alias_loop (df : DataFrame) (n : nat) :
  uniform n df ->
  collect_columns df = map_aliases df (empty_frame REQUIRED_COLS) ALIASES.
Proof.
  intros Hu. unfold collect_columns.
  destruct (map_aliases df (empty_frame REQUIRED_COLS) ALIASES) as [out1|e] eqn:E;
    [|reflexivity].
  assert (Hc : columns out1 = REQUIRED_COLS).
  { eapply map_aliases_inv; eauto using ALIASES_targets, empty_frame_inv. }
  cbn [bind]. rewrite split_coordinates_skipped by assumption. cbn [bind].
  rewrite fill_missing_skipped by assumption.
  now apply (tidy_contact_noop n).
Qed.

Lemma existsb_find {A : Type} (p : A -> bool) l :
  existsb p l = true -> exists x, find p l = Some x.
Proof.
  induction l as [|x l IH]; simpl; [discriminate|].
  destruct (p x); eauto.
Qed.

Lemma find_existsb {A : Type} (p : A -> bool) l :
  find p l = None -> existsb p l = false.
Proof.
  induction l as [|x l IH]; simpl; auto.
  destruct (p x); [discriminate|auto].
Qed.

(** On a table of [n] rows, [out] has [n] rows once step 1 has copied a
    column to it. *)
Lemma collect_columns_copied n df out t :
  uniform n df -> collect_columns df = Ok out ->
  In (t, candidates_of t) ALIASES -> copied df t = true ->
  uniform n out.
Proof.
  intros Hu H Hin Hc. rewrite (collect_columns_alias_loop df n Hu) in H.
  destruct (map_aliases_filling n df ALIASES _ _ Hu (filling_empty n)
              ALIASES_required ALIASES_nodup H) as (_ & _ & P3).
  destruct (existsb_find _ _ Hc) as [cand Hf].
  now destruct (P3 t (candidates_of t) cand Hin Hf).
Qed.

(** On a table without rows, [out] has none. *)
Lemma collect_columns_rowless df out :
  uniform 0 df -> collect_columns df = Ok out -> out = of_records [].
Proof.
  intros Hu H.
  destruct (collect_columns_inv _ _ H) as [[Hc _] _].
  rewrite (collect_columns_alias_loop df 0 Hu) in H.
  destruct (map_aliases_filling 0 df ALIASES _ _ Hu (filling_empty 0)
              ALIASES_required ALIASES_nodup H) as ([_ F] & _ & _).
  assert (U : uniform 0 out) by (destruct F; assumption).
  rewrite (canonical_frame_records out 0 Hc U).
  unfold records. now rewrite (uniform_nrows 0 out U (canonical_nonempty _ Hc)).
Qed.

(** Step 5 does not raise on a table with rows. *)
Lemma valid_coordinates_total rowless n df out :
  uniform n df -> 0 < n -> collect_columns df = Ok out ->
  valid_coordinates rowless (copied df "latitude" || copied df "longitude")%bool out
  = Ok (select_valid out).
Proof.
  intros Hu Hn H.
  destruct (copied df "latitude" || copied df "longitude")%bool eqn:F;
    [|apply valid_coordinates_lenient; now right].
  assert (U : uniform n out).
  { apply orb_true_iff in F. destruct F as [F|F].
    - apply (collect_columns_copied n df out "latitude"); auto. in_list.
    - apply (collect_columns_copied n df out "longitude"); auto. in_list. }
  apply valid_coordinates_rows.
  destruct (collect_columns_inv _ _ H) as [[Hc _] _].
  assert (L : List.length (col out "latitude") = n).
  { apply col_length; auto. apply contains_canonical; auto. in_list. }
  intros E. rewrite E in L. simpl in L. lia.
Qed.

(** C2, as stated, fails: on a header that repeats a selected alias the
    function raises ValueError, whatever pandas makes of columns without
    rows; on an upload that has a header and no row it raises TypeError
    when pandas holds the strings it read as str columns. *)
Lemma C2_counterexample :
  standardise_columns None repeated_header_upload = Raise ValueError
  /\ standardise_columns (Some TypeError) repeated_header_upload = Raise ValueError
  /\ standardise_columns (Some TypeError) header_only_upload = Raise TypeError.
Proof. repeat split; vm_compute; reflexivity. Qed.

(** C2, amended. For every table with at least one row, in whose
    normalised header each alias selected by step 1 names a single column,
    [standardise_columns] returns a table with the canonical columns,
    possibly without rows: the rows that cannot be made canonical are left
    out of it, and nothing is raised.  On a table without rows it returns
    the table without rows, unless the header has an alias of latitude or
    longitude and pandas refuses [&] on columns without rows: then that
    exception is raised. *)
Theorem C2_returns_unless_alias_repeated
        (rowless : option exn) (df : DataFrame) (n : nat) :
  uniform n df ->
  selected_unique (normalise_header df) = true ->
  (0 < n ->
   exists out l,
     standardise_columns rowless df = Ok out
     /\ collect_columns (normalise_header df) = Ok (of_records l)
     /\ out = of_records (map finish (filter keep l)))
  /\ (n = 0 ->
      standardise_columns rowless df
      = if (copied (normalise_header df) "latitude"
            || copied (normalise_header df) "longitude")%bool
        then match rowless with
             | Some e => Raise e
             | None => Ok (of_records [])
             end
        else Ok (of_records [])).
Proof.
  intros Hu H. apply uniform_normalise_header in Hu.
  destruct (collect_columns_total _ H) as [out4 E]. split.
  - intros Hn.
    pose proof (valid_coordinates_total rowless n _ _ Hu Hn E) as V.
    pose proof (standardise_columns_steps rowless df out4 E V) as S.
    destruct (standardise_columns_records _ _ _ S) as (l & E' & _ & Hout).
    eexists _, l. split; [exact S|]. split; assumption.
  - intros ->. pose proof (collect_columns_rowless _ _ Hu E) as ->.
    unfold standardise_columns. rewrite E. cbn [bind].
    destruct (copied _ "latitude" || copied _ "longitude")%bool;
      [destruct rowless|]; reflexivity.
Qed.

Lemma C2_witness :
  uniform 5 sample_upload
  /\ selected_unique (normalise_header sample_upload) = true
  /\ exists out l,
       standardise_columns (Some TypeError) sample_upload = Ok out
       /\ collect_columns (normalise_header sample_upload) = Ok (of_records l)
       /\ out = of_records (map finish (filter keep l)).
Proof.
  assert (U : uniform 5 sample_upload) by (repeat constructor).
  assert (H : selected_unique (normalise_header sample_upload) = true)
    by (vm_compute; reflexivity).
  split; [exact U|]. split; [exact H|].
  apply (proj1 (C2_returns_unless_alias_repeated
                  (Some TypeError) sample_upload 5 U H)).
  lia.
Defined.

(* ------------------------------------------------------------------ *)
(** * Disaster tags: splitting and matching *)



Section Split.
Variable sep : ascii -> bool.





End Split.





Lemma existsb_ext {A : Type} (p q : A -> bool) l :
  (forall x, p x = q x) -> existsb p l = existsb q l.
Proof. intros H. induction l as [|x l IH]; simpl; auto. now rewrite H, IH. Qed.


(** [_matches] is membership in the tag list, letter case apart, the empty
    pieces of the split not counting as tags. *)
Lemma matches_has_tag disaster tags :
  _matches (lower disaster) (PyList tags) = has_tag disaster (filter nonempty tags).
Proof.
  unfold _matches, has_tag. apply existsb_ext. intros item. apply String.eqb_sym.
Qed.



Lemma filter_set_column {A : Type} (df : Frame A) k s c :
  filter (fun c => String.eqb (fst c) k) df = [c] ->
  filter (fun c => String.eqb (fst c) k) (set_column df k s) = [(k, s)].
Proof.
  induction df as [|[k0 s0] df IH]; simpl; [discriminate|].
  destruct (String.eqb k0 k) eqn:E; simpl.
  - rewrite String.eqb_refl. intros H. inversion H. reflexivity.
  - rewrite E. exact IH.
Qed.

Lemma filter_map_names {A B : Type} (f : list A -> list B) (df : Frame A) k :
  filter (fun c => String.eqb (fst c) k) (map (fun c => (fst c, f (snd c))) df)
  = map (fun c => (fst c, f (snd c))) (filter (fun c => String.eqb (fst c) k) df).
Proof.
  induction df as [|[k0 s0] df IH]; simpl; auto.
  destruct (String.eqb k0 k); simpl; now rewrite IH.
Qed.

Lemma getitem_series_filter {A : Type} (df : Frame A) k s :
  getitem df k = Ok (ASeries s) ->
  exists c, filter (fun c => String.eqb (fst c) k) df = [c] /\ snd c = s.
Proof.
  unfold getitem. destruct (filter _ df) as [|c [|c' l]]; try discriminate.
  intros H; inversion H. eauto.
Qed.

Lemma getitem_keyerror {A : Type} (df : Frame A) k :
  getitem df k = Raise KeyError <-> contains df k = false.
Proof.
  unfold getitem, contains, columns.
  induction df as [|[k0 s0] df IH]; simpl; [tauto|].
  rewrite String.eqb_sym. destruct (String.eqb k k0); simpl.
  - split; [|discriminate]. destruct (filter _ df); discriminate.
  - exact IH.
Qed.

Lemma col_map_cells {A B : Type} (f : list A -> list B) (df : Frame A) k :
  f [] = [] ->
  col (map (fun c => (fst c, f (snd c))) df) k = f (col df k).
Proof.
  intros Hf. unfold col. induction df as [|[k0 s0] df IH]; simpl; auto.
  destruct (String.eqb k0 k); auto.
Qed.

(** The frame [load_relief_centers] returns, and its tag column. *)
Lemma getitem_loaded engine df s :
  getitem df "supported_disasters" = Ok (ASeries s) ->
  load_relief_centers engine df
  = Ok (set_column (map (fun c => (fst c, map obj_of_cell (snd c))) df)
                   "supported_disasters"
                   (map (fun c => PyList (split_tags engine c)) s))
  /\ getitem (set_column (map (fun c => (fst c, map obj_of_cell (snd c))) df)
                         "supported_disasters"
                         (map (fun c => PyList (split_tags engine c)) s))
             "supported_disasters"
     = Ok (ASeries (map (fun c => PyList (split_tags engine c)) s)).
Proof.
  intros Hg. split.
  - unfold load_relief_centers. now rewrite Hg.
  - destruct (getitem_series_filter _ _ _ Hg) as (c & Hf & _).
    unfold getitem. erewrite filter_set_column; [reflexivity|].
    rewrite (filter_map_names (fun x => map obj_of_cell x)), Hf. reflexivity.
Qed.


(** Selection by a mask computed from keys, without the mask. *)
Lemma select_rows_where {A B : Type} (p : A -> bool) (keys : list A) : forall xs : list B,
  select (map p keys) xs = rows_where p keys xs.
Proof.
  unfold rows_where.
  induction keys as [|k keys IH]; intros [|x xs]; simpl; auto.
  destruct (p k); simpl; now rewrite IH.
Qed.

(** What [filter_by_disaster] returns on a loaded table. *)
Lemma filter_by_disaster_loaded engine (loaded : Frame obj) (s : Series) disaster :
  getitem loaded "supported_disasters"
  = Ok (ASeries (map (fun c => PyList (split_tags engine c)) s)) ->
  filter_by_disaster loaded disaster
  = Ok match s with
       | [] => []
       | _ :: _ =>
           map (fun c => (fst c, rows_where (tagged engine disaster) s (snd c)))
               loaded
       end.
Proof.
  intros G. unfold filter_by_disaster. rewrite G. cbn [bind]. f_equal.
  destruct s as [|c0 s]; [reflexivity|].
  cbn [map getitem_applied]. unfold select_rows. apply map_ext. intros [k xs].
  cbn [fst snd]. f_equal.
  change (_matches (lower disaster) (PyList (split_tags engine c0))
          :: map (_matches (lower disaster))
                 (map (fun c => PyList (split_tags engine c)) s))
    with (map (_matches (lower disaster))
              (map (fun c => PyList (split_tags engine c)) (c0 :: s))).
  rewrite map_map, <- select_rows_where. f_equal.
  apply map_ext. intros c. apply matches_has_tag.
Qed.




(* ------------------------------------------------------------------ *)
(** * Encoding detection *)

(** C9. [detect_encoding] is to return an encoding that is safe for the
    given bytes, and falls back to "latin1" for that; but the guess is made
    on the first 50,000 bytes and any guess other than the empty one,
    "ascii" and "unknown" is returned as it is.  Here the sample is
    well-formed UTF-8, the guesser is right about it, the encoding returned
    is "utf-8", and decoding the whole file with it fails: the read stage
    does fail on encoding alone. *)
Theorem C9_guess_unsafe_beyond_sample :
  Codec.utf8_wf (map Byte.to_N (firstn sample_size broken_after_sample)) = true
  /\ detect_encoding sample_guesser broken_after_sample = "utf-8"
  /\ read_csv_decodes (detect_encoding sample_guesser broken_after_sample)
                      broken_after_sample = Some false.
Proof. repeat split; vm_compute; reflexivity. Qed.

Lemma in_fallback_names enc :
  existsb (String.eqb enc) fallback_names = true <-> In enc fallback_names.
Proof.
  rewrite existsb_exists. split.
  - intros (x & Hx & E). apply String.eqb_eq in E. now subst.
  - intros H. exists enc. split; auto. apply String.eqb_refl.
Qed.

(** What [detect_encoding] does do: it looks at the first 50,000 bytes
    only; it returns "latin1" when the guess, lowercased, is empty, "ascii"
    or "unknown", and the lowercased guess otherwise; whenever it returns
    "latin1" the bytes decode, whatever they are. *)
Lemma detect_encoding_cases
        (chardet_detect : list Byte.byte -> option string)
        (raw_bytes : list Byte.byte) :
  let enc := lower (match chardet_detect (firstn sample_size raw_bytes) with
                    | Some e => e
                    | None => ""
                    end) in
  (In enc fallback_names -> detect_encoding chardet_detect raw_bytes = "latin1")
  /\ (~ In enc fallback_names -> detect_encoding chardet_detect raw_bytes = enc)
  /\ (detect_encoding chardet_detect raw_bytes = "latin1"
      <-> In enc fallback_names \/ enc = "latin1")
  /\ (forall other, firstn sample_size other = firstn sample_size raw_bytes ->
                    detect_encoding chardet_detect other
                    = detect_encoding chardet_detect raw_bytes)
  /\ (detect_encoding chardet_detect raw_bytes = "latin1" ->
      read_csv_decodes (detect_encoding chardet_detect raw_bytes) raw_bytes
      = Some true).
Proof.
  intros enc. unfold detect_encoding. fold enc. fold fallback_names.
  destruct (existsb (String.eqb enc) fallback_names) eqn:E.
  - apply in_fallback_names in E. repeat split; auto; try tauto.
    intros other Ho. rewrite Ho. fold enc.
    apply in_fallback_names in E. now rewrite E.
  - assert (N : ~ In enc fallback_names)
      by (intros H; apply in_fallback_names in H; congruence).
    repeat split; auto; try tauto.
    + intros other Ho. rewrite Ho. fold enc. now rewrite E.
    + intros ->. reflexivity.
Qed.

(* ------------------------------------------------------------------ *)
(** * Further properties of [standardise_columns] *)

(** X1. A returned table has exactly the eight required columns, in the
    order of [REQUIRED_COLS], and all of them have the same length, the
    number of rows. *)
Theorem X1_output_has_required_columns
        (rowless : option exn) (df out : DataFrame) :
  standardise_columns rowless df = Ok out ->
  columns out = REQUIRED_COLS
  /\ uniform (nrows out) out
  /\ List.length (records out) = nrows out.
Proof.
  intros H. destruct (standardise_columns_records _ _ _ H) as (l & _ & _ & ->).
  split; [reflexivity|]. split.
  - replace (nrows (of_records (map finish (filter keep l))))
      with (List.length (map finish (filter keep l)))
      by (simpl; now rewrite !length_map).
    apply uniform_of_records.
  - unfold records. now rewrite length_map, length_seq.
Qed.

Lemma X1_witness :
  standardise_columns (Some TypeError) sample_upload = Ok sample_clean
  /\ columns sample_clean = REQUIRED_COLS
  /\ uniform (nrows sample_clean) sample_clean
  /\ List.length (records sample_clean) = nrows sample_clean.
Proof.
  assert (H : standardise_columns (Some TypeError) sample_upload = Ok sample_clean)
    by (vm_compute; reflexivity).
  split; [exact H|]. exact (X1_output_has_required_columns _ _ _ H).
Defined.

(** X2. On a table (all columns of one length) steps 2, 3 and 4 change
    nothing: what steps 1 to 4 produce, or the exception they raise, is
    what the alias loop of step 1 alone produces. *)
Theorem X2_only_alias_loop_fills_out (df : DataFrame) (n : nat) :
  uniform n df ->
  collect_columns df = map_aliases df (empty_frame REQUIRED_COLS) ALIASES.
Proof. exact (collect_columns_alias_loop df n). Qed.

Lemma X2_witness :
  uniform 5 (normalise_header sample_upload)
  /\ collect_columns (normalise_header sample_upload)
     = map_aliases (normalise_header sample_upload)
                   (empty_frame REQUIRED_COLS) ALIASES.
Proof.
  assert (U : uniform 5 (normalise_header sample_upload))
    by (repeat constructor).
  split; [exact U|]. exact (X2_only_alias_loop_fills_out _ 5 U).
Defined.

(** X3. Priority of the aliases: for each canonical column, the first of
    its candidates that the header has is the one copied, whatever other
    candidates the header has as well; that name then stands once in the
    header. *)
Theorem X3_first_present_alias_wins
        (df out : DataFrame) (n : nat) (t : string) (cs : list string)
        (cand : string) :
  uniform n df ->
  collect_columns df = Ok out ->
  In (t, cs) ALIASES ->
  find (contains df) cs = Some cand ->
  col out t = col df cand /\ count_col df cand = 1.
Proof.
  intros Hu H Hin Hf. rewrite (collect_columns_alias_loop df n Hu) in H.
  destruct (map_aliases_filling n df ALIASES _ _ Hu (filling_empty n)
              ALIASES_required ALIASES_nodup H) as (_ & _ & P3).
  destruct (P3 t cs cand Hin Hf) as (_ & L & N). auto.
Qed.

Lemma X3_witness :
  uniform 1 (normalise_header lon_and_long_upload)
  /\ In ("longitude", ["lon"; "long"; "longitude"; "longitude(dd)"; "lng"; "lng_dd"])
        ALIASES
  /\ find (contains (normalise_header lon_and_long_upload))
          ["lon"; "long"; "longitude"; "longitude(dd)"; "lng"; "lng_dd"]
     = Some "lon"
  /\ col (of_records [mkRecord (Some "Camp A") (Some "shelter") (Some "12.9")
                               (Some "9") None None (Some "100") None])
         "longitude"
     = col (normalise_header lon_and_long_upload) "lon".
Proof.
  assert (U : uniform 1 (normalise_header lon_and_long_upload))
    by (repeat constructor).
  assert (I : In ("longitude",
                  ["lon"; "long"; "longitude"; "longitude(dd)"; "lng"; "lng_dd"])
                 ALIASES) by in_list.
  assert (F : find (contains (normalise_header lon_and_long_upload))
                   ["lon"; "long"; "longitude"; "longitude(dd)"; "lng"; "lng_dd"]
              = Some "lon") by reflexivity.
  split; [exact U|]. split; [exact I|]. split; [exact F|].
  refine (proj1 (X3_first_present_alias_wins _ _ 1 _ _ _ U _ I F)).
  vm_compute; reflexivity.
Defined.

Lemma filter_length_le {A : Type} (p : A -> bool) l :
  List.length (filter p l) <= List.length l.
Proof. induction l as [|x l IH]; simpl; [lia|]. destruct (p x); simpl; lia. Qed.

Lemma nrows_of_records l : nrows (of_records l) = List.length l.
Proof. simpl. apply length_map. Qed.

(** X4. On a table of [n] rows a returned result has at most [n] rows. *)
Theorem X4_no_more_rows_than_input
        (rowless : option exn) (df out : DataFrame) (n : nat) :
  uniform n df ->
  standardise_columns rowless df = Ok out ->
  nrows out <= n.
Proof.
  intros Hu H. destruct (standardise_columns_records _ _ _ H) as (l & E & _ & ->).
  apply uniform_normalise_header in Hu.
  rewrite (collect_columns_alias_loop _ n Hu) in E.
  destruct (map_aliases_filling n _ ALIASES _ _ Hu (filling_empty n)
              ALIASES_required ALIASES_nodup E) as ([_ F] & _ & _).
  rewrite nrows_of_records, length_map.
  etransitivity; [apply filter_length_le|].
  rewrite <- nrows_of_records.
  destruct F as [U|U];
    rewrite (uniform_nrows _ _ U (of_records_nonempty l)); lia.
Qed.

Lemma X4_witness :
  uniform 5 sample_upload
  /\ standardise_columns (Some TypeError) sample_upload = Ok sample_clean
  /\ nrows sample_clean <= 5.
Proof.
  assert (U : uniform 5 sample_upload) by (repeat constructor).
  assert (H : standardise_columns (Some TypeError) sample_upload = Ok sample_clean)
    by (vm_compute; reflexivity).
  split; [exact U|]. split; [exact H|].
  exact (X4_no_more_rows_than_input _ _ _ 5 U H).
Defined.

(** A target none of whose candidates is in the header stays NaN through
    alias resolution. *)
Lemma map_aliases_unresolved df t al : forall out out',
  map_aliases df out al = Ok out' ->
  (forall cs, In (t, cs) al -> find (contains df) cs = None) ->
  Forall (eq None) (col out t) ->
  Forall (eq None) (col out' t).
Proof.
  induction al as [|[t0 cs0] al IH]; intros out out' H Hn Hb.
  - simpl in H. inversion H; subst. exact Hb.
  - cbn [map_aliases] in H. apply bind_ok in H. destruct H as (out1 & H0 & H1).
    apply (IH out1 out' H1); [intros cs Hin; apply Hn; now right|].
    rewrite map_alias_spec in H0.
    destruct (find (contains df) cs0) as [cand|] eqn:E.
    + destruct (Nat.eqb (count_col df cand) 1); [|discriminate].
      inversion H0; subst. apply setitem_col_other; auto.
      intros ->. rewrite (Hn cs0) in E by now left. discriminate.
    + inversion H0; subst. exact Hb.
Qed.

Lemma col_empty_frame cols t : Forall (eq None) (col (empty_frame cols) t).
Proof.
  unfold col, empty_frame. induction cols as [|c cols IH]; simpl; [constructor|].
  destruct (String.eqb c t); [constructor|exact IH].
Qed.

Lemma collect_columns_unresolved df out t cs :
  collect_columns df = Ok out ->
  In (t, cs) ALIASES ->
  find (contains df) cs = None ->
  Forall (eq None) (col out t).
Proof.
  intros H Hin Hnone. unfold collect_columns in H.
  apply bind_ok in H. destruct H as (out1 & HM & H).
  assert (Hc : columns out1 = REQUIRED_COLS).
  { eapply map_aliases_inv; eauto using ALIASES_targets, empty_frame_inv. }
  rewrite split_coordinates_skipped in H by assumption. cbn [bind] in H.
  rewrite fill_missing_skipped in H by assumption.
  assert (B1 : Forall (eq None) (col out1 t)).
  { apply (map_aliases_unresolved df t ALIASES (empty_frame REQUIRED_COLS)); auto.
    - intros cs' Hin'.
      assert (cs' = cs); [|now subst].
      clear - Hin Hin'. unfold ALIASES in *. simpl in *.
      repeat (destruct Hin as [Hin|Hin];
              [inversion Hin; subst;
               repeat (destruct Hin' as [Hin'|Hin'];
                       [inversion Hin'; subst; reflexivity || discriminate|]);
               contradiction|]).
      contradiction.
    - apply col_empty_frame. }
  destruct (tidy_contact_cases _ _ _ H) as [->|[Hm ->]]; [exact B1|].
  apply setitem_col_other; auto.
  intros <-. unfold ALIASES in Hin. simpl in Hin.
  repeat (destruct Hin as [Hin|Hin]; [inversion Hin|]); try contradiction.
  subst cs. simpl in Hnone. rewrite Hm in Hnone. discriminate.
Qed.

Lemma target_field t cs :
  In (t, cs) ALIASES ->
  exists f : CanonicalRecord -> cell,
    (forall l, col (of_records l) t = map f l)
    /\ (forall r, f r = None -> keep r = false).
Proof.
  unfold ALIASES. simpl. intros Hin.
  repeat (destruct Hin as [Hin|Hin]; [inversion Hin; subst t cs; clear Hin|]);
    try contradiction.
  - exists r_name. split; [reflexivity|].
    intros r E. unfold keep, essentials_present. rewrite E. simpl.
    now rewrite ?andb_false_r.
  - exists r_type. split; [reflexivity|].
    intros r E. unfold keep, essentials_present. rewrite E. simpl.
    now rewrite ?andb_false_r.
  - exists r_latitude. split; [reflexivity|].
    intros r E. unfold keep, essentials_present. rewrite E. simpl.
    now rewrite ?andb_false_r.
  - exists r_longitude. split; [reflexivity|].
    intros r E. unfold keep, essentials_present. rewrite E. simpl.
    now rewrite ?andb_false_r.
  - exists r_contact. split; [reflexivity|].
    intros r E. unfold keep, essentials_present. rewrite E. simpl.
    now rewrite ?andb_false_r.
Qed.

Lemma essential_nan_not_kept l t cs :
  In (t, cs) ALIASES ->
  Forall (eq None) (col (of_records l) t) ->
  filter keep l = [].
Proof.
  intros Hin Hb. destruct (target_field t cs Hin) as (f & Hcol & Hkeep).
  rewrite Hcol, Forall_map in Hb.
  induction Hb as [|r l Hr Hb IH]; simpl; auto.
  now rewrite (Hkeep r) by auto.
Qed.

(** X5. If, for one of the five aliased columns, the header has none of its
    candidates (for instance when it is wholly unrecognised), the result is
    the table without rows, and nothing is raised for that. *)
Theorem X5_unresolved_column_gives_no_rows
        (rowless : option exn) (df out : DataFrame) (t : string)
        (cs : list string) :
  standardise_columns rowless df = Ok out ->
  In (t, cs) ALIASES ->
  find (contains (normalise_header df)) cs = None ->
  out = of_records [].
Proof.
  intros H Hin Hnone.
  destruct (standardise_columns_records _ _ _ H) as (l & E & _ & ->).
  pose proof (collect_columns_unresolved _ _ _ _ E Hin Hnone) as Hb.
  now rewrite (essential_nan_not_kept l t cs Hin Hb).
Qed.

Lemma X5_witness :
  standardise_columns (Some TypeError) combined_upload = Ok (of_records [])
  /\ In ("latitude", ["lat"; "latitude"; "latitude(dd)"; "lat_dd"]) ALIASES
  /\ find (contains (normalise_header combined_upload))
          ["lat"; "latitude"; "latitude(dd)"; "lat_dd"] = None
  /\ of_records [] = of_records [].
Proof.
  assert (H : standardise_columns (Some TypeError) combined_upload
              = Ok (of_records []))
    by (vm_compute; reflexivity).
  assert (I : In ("latitude", ["lat"; "latitude"; "latitude(dd)"; "lat_dd"])
                 ALIASES) by in_list.
  assert (F : find (contains (normalise_header combined_upload))
                   ["lat"; "latitude"; "latitude(dd)"; "lat_dd"] = None)
    by reflexivity.
  split; [exact H|]. split; [exact I|]. split; [exact F|].
  exact (X5_unresolved_column_gives_no_rows _ _ _ _ _ H I F).
Defined.

(** ** The columns the function reads *)

Lemma normalise_header_alias_columns df :
  normalise_header (alias_columns df) = keep_aliases (normalise_header df).
Proof.
  unfold normalise_header, alias_columns, keep_aliases.
  induction df as [|[k s] df IH]; cbn [map filter fst snd]; auto.
  destruct (is_alias (normalise k)); cbn [map fst snd]; now rewrite IH.
Qed.

Lemma filter_keep_aliases (df : DataFrame) k :
  is_alias k = true ->
  filter (fun c => String.eqb (fst c) k) (keep_aliases df)
  = filter (fun c => String.eqb (fst c) k) df.
Proof.
  intros Hk. unfold keep_aliases.
  induction df as [|[k0 s0] df IH]; simpl; auto.
  destruct (is_alias k0) eqn:E; simpl.
  - now rewrite IH.
  - destruct (String.eqb k0 k) eqn:E0; auto.
    apply String.eqb_eq in E0. congruence.
Qed.

Lemma getitem_keep_aliases df k :
  is_alias k = true -> getitem (keep_aliases df) k = getitem df k.
Proof. intros H. unfold getitem. now rewrite filter_keep_aliases. Qed.

Lemma contains_keep_aliases df k :
  is_alias k = true -> contains (keep_aliases df) k = contains df k.
Proof. intros H. rewrite !contains_filter. now rewrite filter_keep_aliases. Qed.

Lemma map_alias_keep_aliases df out t cs :
  forallb is_alias cs = true ->
  map_alias (keep_aliases df) out t cs = map_alias df out t cs.
Proof.
  induction cs as [|cand cs IH]; simpl; auto.
  intros H. apply andb_true_iff in H. destruct H as [H1 H2].
  rewrite contains_keep_aliases, getitem_keep_aliases by assumption.
  destruct (contains df cand); auto.
Qed.

Lemma map_aliases_keep_aliases df al : forall out,
  forallb (fun a => forallb is_alias (snd a)) al = true ->
  map_aliases (keep_aliases df) out al = map_aliases df out al.
Proof.
  induction al as [|[t cs] al IH]; simpl; auto.
  intros out H. apply andb_true_iff in H. destruct H as [H1 H2].
  rewrite map_alias_keep_aliases by assumption.
  destruct (map_alias df out t cs); simpl; auto.
Qed.

Lemma collect_columns_keep_aliases df :
  collect_columns (keep_aliases df) = collect_columns df.
Proof.
  unfold collect_columns.
  rewrite map_aliases_keep_aliases by reflexivity.
  destruct (map_aliases df _ _) as [out1|e] eqn:E; [|reflexivity].
  assert (Hc : columns out1 = REQUIRED_COLS).
  { eapply map_aliases_inv; eauto using ALIASES_targets, empty_frame_inv. }
  cbn [bind]. rewrite !split_coordinates_skipped by assumption. cbn [bind].
  unfold tidy_contact.
  now rewrite contains_keep_aliases, getitem_keep_aliases by reflexivity.
Qed.

Lemma copied_keep_aliases df t :
  forallb is_alias (candidates_of t) = true ->
  copied (keep_aliases df) t = copied df t.
Proof.
  unfold copied. induction (candidates_of t) as [|c cs IH]; simpl; auto.
  intros H. apply andb_true_iff in H. destruct H as [H1 H2].
  now rewrite contains_keep_aliases, IH.
Qed.

(** X6. The function reads only the columns whose name, stripped and
    lowercased, is one of the aliases: two uploads with the same such
    columns give the same result (or the same exception), whatever their
    other columns hold, [location_coordinates] included. *)
Theorem X6_only_alias_columns_are_read
        (rowless : option exn) (df1 df2 : DataFrame) :
  alias_columns df1 = alias_columns df2 ->
  standardise_columns rowless df1 = standardise_columns rowless df2.
Proof.
  intros H.
  assert (E : forall df, standardise_columns rowless df
                         = standardise_columns rowless (alias_columns df)).
  { intros df. unfold standardise_columns.
    rewrite normalise_header_alias_columns, collect_columns_keep_aliases.
    now rewrite !copied_keep_aliases by reflexivity. }
  now rewrite (E df1), (E df2), H.
Qed.

Lemma X6_witness :
  alias_columns combined_upload
  = alias_columns [("name", [Some "Camp A"]); ("type", [Some "shelter"]);
                   ("contact", [Some "100"])]
  /\ standardise_columns (Some TypeError) combined_upload
     = standardise_columns (Some TypeError)
         [("name", [Some "Camp A"]); ("type", [Some "shelter"]);
          ("contact", [Some "100"])].
Proof.
  assert (H : alias_columns combined_upload
              = alias_columns [("name", [Some "Camp A"]); ("type", [Some "shelter"]);
                               ("contact", [Some "100"])])
    by (vm_compute; reflexivity).
  split; [exact H|]. exact (X6_only_alias_columns_are_read _ _ _ H).
Defined.

(** ** The coordinate checks *)

Lemma in_range_90_finite f :
  in_range (-90) 90 f = true -> is_finite f = true /\ in_range (-180) 180 f = true.
Proof.
  unfold in_range.
  change (of_Z (-90)) with (S754_finite true 6333186975989760 (-46)).
  change (of_Z 90) with (S754_finite false 6333186975989760 (-46)).
  change (of_Z (-180)) with (S754_finite true 6333186975989760 (-45)).
  change (of_Z 180) with (S754_finite false 6333186975989760 (-45)).
  destruct f as [s|s| |s m e]; try (destruct s); simpl; try discriminate; auto;
    unfold SFleb, SFcompare.
  - destruct (Z.compare_spec (-46) e) as [E|E|E]; try discriminate; intros _;
      (split; [reflexivity|]);
      destruct (Z.compare_spec (-45) e); try lia; reflexivity.
  - destruct (Z.compare_spec e (-46)) as [E|E|E]; try discriminate; intros _;
      (split; [reflexivity|]);
      destruct (Z.compare_spec e (-45)); try lia; reflexivity.
Qed.

Lemma in_range_180_finite f :
  in_range (-180) 180 f = true -> is_finite f = true.
Proof.
  unfold in_range.
  change (of_Z (-180)) with (S754_finite true 6333186975989760 (-45)).
  change (of_Z 180) with (S754_finite false 6333186975989760 (-45)).
  destruct f as [s|s| |s m e]; try (destruct s); simpl; try discriminate; auto.
Qed.

(** X7. A coordinate that passes [good_lat] or [good_lon] is a string that
    [float] parses to a finite number: "nan", "inf" and "infinity", which
    [float] accepts, are rejected by the range test, and so is NaN. *)
Theorem X7_accepted_coordinates_are_finite (c : cell) :
  good_lat c = true \/ good_lon c = true ->
  exists s f, c = Some s /\ float_of_string s = Some f /\ is_finite f = true.
Proof.
  intros [H|H]; apply good_coord_spec in H; destruct H as (s & f & -> & Hf & Hr);
    exists s, f; repeat split; auto.
  - now apply in_range_90_finite.
  - now apply in_range_180_finite.
Qed.

Lemma X7_witness :
  (good_lat (Some " -12.5e0 ") = true \/ good_lon (Some " -12.5e0 ") = true)
  /\ exists s f, Some " -12.5e0 " = Some s /\ float_of_string s = Some f
                 /\ is_finite f = true.
Proof.
  assert (H : good_lat (Some " -12.5e0 ") = true \/ good_lon (Some " -12.5e0 ") = true)
    by (left; vm_compute; reflexivity).
  split; [exact H|]. exact (X7_accepted_coordinates_are_finite _ H).
Defined.

(* ------------------------------------------------------------------ *)
(** * Further properties of [load_relief_centers] and [filter_by_disaster] *)

(** X8. [load_relief_centers] raises [KeyError] exactly when the table has
    no [supported_disasters] column; when it returns, the table has the
    same column names in the same order, and every other column holds the
    cells it held. *)
Theorem X8_load_touches_one_column (engine : regex_engine) (df : DataFrame) :
  (load_relief_centers engine df = Raise KeyError
   <-> contains df "supported_disasters" = false)
  /\ (forall loaded,
        load_relief_centers engine df = Ok loaded ->
        columns loaded = columns df
        /\ forall k, k <> "supported_disasters" ->
                     col loaded k = map obj_of_cell (col df k)).
Proof.
  unfold load_relief_centers. split.
  - rewrite <- getitem_keyerror.
    destruct (getitem df "supported_disasters") as [[s|cs]|e]; simpl;
      split; intros H; try discriminate H; auto; inversion H; auto.
  - intros loaded H.
    destruct (getitem df "supported_disasters") as [[s|cs]|e] eqn:G; simpl in H;
      try discriminate H.
    inversion H; subst; clear H.
    assert (Hc : contains df "supported_disasters" = true).
    { destruct (contains df "supported_disasters") eqn:C; auto.
      apply getitem_keyerror in C. congruence. }
    split.
    + rewrite columns_set_column.
      * unfold columns. rewrite map_map. reflexivity.
      * unfold contains, columns in *. now rewrite map_map.
    + intros k Hk. rewrite col_set_column_other by congruence.
      now apply (col_map_cells (map obj_of_cell)).
Qed.

Lemma X8_witness :
  contains saved_centers "supported_disasters" = true
  /\ exists loaded,
       load_relief_centers RE2 saved_centers = Ok loaded
       /\ columns loaded = columns saved_centers
       /\ col loaded "name" = map obj_of_cell (col saved_centers "name").
Proof.
  split; [reflexivity|].
  destruct (load_relief_centers RE2 saved_centers) as [loaded|e] eqn:E;
    [|vm_compute in E; discriminate E].
  exists loaded. split; [reflexivity|].
  destruct (proj2 (X8_load_touches_one_column RE2 saved_centers) loaded E)
    as [C K].
  split; [exact C|]. apply K. discriminate.
Defined.

Lemma select_all_true {A : Type} (x : list A) : forall L,
  List.length x <= L -> select (repeat true L) x = x.
Proof.
  induction x as [|a x IH]; intros [|L] H; simpl in *; auto; try lia.
  f_equal. apply IH. lia.
Qed.

Lemma select_length_le {A B : Type} (f : A -> bool) (s : list A) : forall c : list B,
  List.length (select (map f s) c) <= List.length (filter f s).
Proof.
  induction s as [|a s IH]; intros [|b c]; simpl; try lia.
  specialize (IH c). destruct (f a); simpl; lia.
Qed.

Lemma map_filter_true {A : Type} (f : A -> bool) s :
  map f (filter f s) = repeat true (List.length (filter f s)).
Proof.
  induction s as [|a s IH]; simpl; auto.
  destruct (f a) eqn:E; simpl; auto. now rewrite E, IH.
Qed.

Lemma getitem_select_rows {A : Type} m (df : Frame A) k s :
  getitem df k = Ok (ASeries s) ->
  getitem (select_rows m df) k = Ok (ASeries (select m s)).
Proof.
  intros H. destruct (getitem_series_filter _ _ _ H) as (c & Hf & <-).
  unfold getitem, select_rows.
  rewrite (filter_map_names (select m)), Hf. reflexivity.
Qed.

Lemma getitem_col {A : Type} (df : Frame A) k s :
  getitem df k = Ok (ASeries s) -> col df k = s.
Proof.
  intros H. destruct (getitem_series_filter _ _ _ H) as (c & Hf & <-).
  unfold col. rewrite find_filter, Hf. reflexivity.
Qed.

Lemma filter_by_disaster_ok df d r :
  filter_by_disaster df d = Ok r ->
  exists s, getitem df "supported_disasters" = Ok (ASeries s)
            /\ col df "supported_disasters" = s
            /\ r = getitem_applied (_matches (lower d)) s df.
Proof.
  unfold filter_by_disaster.
  destruct (getitem df "supported_disasters") as [[s|cs]|e] eqn:G; simpl;
    intros H; inversion H. exists s. repeat split. now apply getitem_col.
Qed.

Lemma getitem_applied_rows {A B : Type} (f : B -> bool) (s : list B) (df : Frame A) :
  s <> [] -> getitem_applied f s df = select_rows (map f s) df.
Proof. destruct s; [congruence|reflexivity]. Qed.

(** X9. From a table with rows [filter_by_disaster] returns a table with
    the same columns.  When the result has a row, filtering it again by the
    same disaster type returns it unchanged; when it has none, filtering it
    again returns a frame without columns.  From a table without rows it
    returns a frame without columns at once, and on such a frame it raises
    KeyError. *)
Theorem X9_filter_is_idempotent (df r : Frame obj) (disaster : string) :
  filter_by_disaster df disaster = Ok r ->
  (col df "supported_disasters" <> [] ->
   columns r = columns df
   /\ (col r "supported_disasters" <> [] -> filter_by_disaster r disaster = Ok r)
   /\ (col r "supported_disasters" = [] -> filter_by_disaster r disaster = Ok []))
  /\ (col df "supported_disasters" = [] -> r = [])
  /\ filter_by_disaster [] disaster = Raise KeyError.
Proof.
  intros H. destruct (filter_by_disaster_ok _ _ _ H) as (s & G & C & ->).
  rewrite C. split; [|split; [intros ->; reflexivity|reflexivity]].
  intros Hs. destruct s as [|x s]; [congruence|]. cbn [getitem_applied].
  set (m := map (_matches (lower disaster)) (x :: s)).
  pose proof (getitem_select_rows m _ _ _ G) as G'.
  rewrite (getitem_col _ _ _ G').
  split; [apply columns_select_rows|]. split.
  - intros Hne. unfold filter_by_disaster. rewrite G'. cbn [bind]. f_equal.
    rewrite getitem_applied_rows by exact Hne. unfold m.
    rewrite select_map_filter, map_filter_true.
    unfold select_rows. rewrite map_map.
    apply map_ext. intros [k c]. cbn [fst snd]. f_equal.
    apply select_all_true, select_length_le.
  - intros E. unfold filter_by_disaster. rewrite G'. cbn [bind]. now rewrite E.
Qed.

Lemma X9_witness :
  exists loaded r,
    load_relief_centers RE2 saved_centers = Ok loaded
    /\ filter_by_disaster loaded "FLOOD" = Ok r
    /\ col loaded "supported_disasters" <> []
    /\ col r "supported_disasters" <> []
    /\ columns r = columns loaded
    /\ filter_by_disaster r "FLOOD" = Ok r.
Proof.
  destruct (load_relief_centers RE2 saved_centers) as [loaded|e] eqn:L;
    [|vm_compute in L; discriminate L].
  vm_compute in L. injection L as <-.
  destruct (filter_by_disaster
              [("name", [Str "Camp A"; Str "Camp B"; Str "Camp C"]);
               ("supported_disasters",
                [PyList ["Flood"; "Cyclone"]; PyList ["fire"; "Flood"];
                 PyList [""]])] "FLOOD") as [r|e] eqn:F;
    [|vm_compute in F; discriminate F].
  eexists _, r. split; [reflexivity|]. split; [exact F|].
  assert (N : col [("name", [Str "Camp A"; Str "Camp B"; Str "Camp C"]);
                   ("supported_disasters",
                    [PyList ["Flood"; "Cyclone"]; PyList ["fire"; "Flood"];
                     PyList [""]])] "supported_disasters" <> [])
    by discriminate.
  destruct (proj1 (X9_filter_is_idempotent _ _ _ F) N) as (C & I & _).
  assert (N' : col r "supported_disasters" <> []).
  { vm_compute in F. injection F as <-. discriminate. }
  split; [exact N|]. split; [exact N'|]. split; [exact C|]. exact (I N').
Defined.

Lemma rows_where_none {A B : Type} (p : A -> bool) (keys : list A) :
  Forall (fun k => p k = false) keys ->
  forall xs : list B, rows_where p keys xs = [].
Proof.
  unfold rows_where. induction 1 as [|k keys Hk H IH]; intros [|x xs]; simpl; auto.
  rewrite Hk. apply IH.
Qed.

(** X10. A table returned by [standardise_columns] has no inventory flag
    and no disaster tag: on each of its rows [has_inventory] is false, and
    once it is loaded (as it stands: NaN and the empty string are both
    stored as an empty field) [filter_by_disaster] returns no row for any
    disaster type: the eight columns, all empty, when the table has rows,
    and a frame without columns when it has none. *)
Theorem X10_cleaned_table_matches_no_disaster
        (rowless : option exn) (engine : regex_engine)
        (df out : DataFrame) (disaster : string) :
  standardise_columns rowless df = Ok out ->
  (forall r, In r (records out) -> has_inventory (r_inventory r) = false)
  /\ exists loaded result,
       load_relief_centers engine out = Ok loaded
       /\ filter_by_disaster loaded disaster = Ok result
       /\ columns result = (if Nat.eqb (nrows out) 0 then [] else REQUIRED_COLS)
       /\ Forall (fun c => snd c = []) result.
Proof.
  intros H. split.
  - intros r Hr. destruct (output_row _ _ _ _ H Hr) as (r0 & -> & _ & (E & _)).
    simpl. now rewrite E.
  - destruct (standardise_columns_records _ _ _ H) as (l & _ & Ho & ->).
    set (l' := map finish (filter keep l)).
    assert (Hs : Forall (fun r => r_supported_disasters r = None) l').
    { unfold l'. rewrite Forall_map. apply Forall_forall. intros r Hr.
      apply filter_In in Hr. destruct Hr as [Hin _].
      rewrite Forall_forall in Ho. destruct (Ho r Hin) as (_ & _ & E).
      simpl. now rewrite E. }
    assert (G : getitem (of_records l') "supported_disasters"
                = Ok (ASeries (map r_supported_disasters l'))) by reflexivity.
    destruct (getitem_loaded engine _ _ G) as [L GL].
    eexists _, _. split; [exact L|].
    split; [exact (filter_by_disaster_loaded engine _ _ disaster GL)|].
    rewrite nrows_of_records.
    destruct l' as [|r0 l0] eqn:El; [split; [reflexivity|constructor]|].
    cbn [map List.length Nat.eqb]. rewrite <- El in *. split.
    + unfold columns. rewrite map_map. cbn [fst].
      change (map (fun x : string * list obj => fst x) ?f) with (columns f).
      rewrite columns_set_column by reflexivity.
      unfold columns. rewrite map_map. reflexivity.
    + rewrite Forall_map. apply Forall_forall. intros c _. cbn [snd].
      apply rows_where_none.
      change (r_supported_disasters r0 :: map r_supported_disasters l0)
        with (map r_supported_disasters (r0 :: l0)).
      rewrite <- El, Forall_map.
      eapply Forall_impl; [|exact Hs].
      intros r E. rewrite E. destruct engine; reflexivity.
Qed.

Lemma X10_witness :
  standardise_columns (Some TypeError) sample_upload = Ok sample_clean
  /\ exists loaded result,
       load_relief_centers RE2 sample_clean = Ok loaded
       /\ filter_by_disaster loaded "Flood" = Ok result
       /\ columns result = REQUIRED_COLS
       /\ Forall (fun c => snd c = []) result.
Proof.
  assert (H : standardise_columns (Some TypeError) sample_upload = Ok sample_clean)
    by (vm_compute; reflexivity).
  split; [exact H|].
  exact (proj2 (X10_cleaned_table_matches_no_disaster _ RE2 _ _ "Flood" H)).
Defined.

(* ------------------------------------------------------------------ *)
(** * The reader chosen for an upload *)

Import Upload.

Lemma endswith_unfold s suffix :
  endswith s suffix
  = if String.eqb s suffix then true
    else match s with
         | EmptyString => false
         | String _ s' => endswith s' suffix
         end.
Proof. destruct s; reflexivity. Qed.

Lemma ends_xls_not_xlsx s :
  endswith s ".xls" = true -> endswith s "xlsx" = false.
Proof.
  induction s as [|c s IH]; [discriminate|].
  rewrite (endswith_unfold (String c s) ".xls"),
    (endswith_unfold (String c s) "xlsx").
  destruct (String.eqb_spec (String c s) ".xls") as [E|E].
  - injection E as -> ->. reflexivity.
  - intros H. destruct (String.eqb_spec (String c s) "xlsx") as [E'|E'].
    + inversion E'; subst. discriminate H.
    + auto.
Qed.

Lemma ends_dot_xlsx s :
  endswith s ".xlsx" = true ->
  endswith s "xlsx" = true /\ endswith s ".xls" = false.
Proof.
  induction s as [|c s IH]; [discriminate|].
  rewrite (endswith_unfold (String c s) ".xlsx"),
    (endswith_unfold (String c s) "xlsx"), (endswith_unfold (String c s) ".xls").
  destruct (String.eqb_spec (String c s) ".xlsx") as [E|E].
  - injection E as -> ->. split; reflexivity.
  - intros H. destruct (IH H) as [H1 H2]. rewrite H1, H2.
    split; [now destruct (String.eqb (String c s) "xlsx")|].
    destruct (String.eqb_spec (String c s) ".xls") as [E'|E']; auto.
    inversion E'; subst. discriminate H.
Qed.

(** X11. Which reader an upload gets depends on its name in lower case
    only: [read_excel] with [openpyxl] exactly when it ends in [.xlsx],
    [read_excel] with [xlrd] exactly when it ends in [.xls], and otherwise
    [read_csv] with the encoding [detect_encoding] gives for its bytes. *)
Theorem X11_reader_by_extension
        (chardet_detect : list Byte.byte -> option string)
        (name : string) (raw : list Byte.byte) :
  (read_any_file chardet_detect name raw = read_excel "openpyxl"
   <-> endswith (lower name) ".xlsx" = true)
  /\ (read_any_file chardet_detect name raw = read_excel "xlrd"
      <-> endswith (lower name) ".xls" = true)
  /\ (read_any_file chardet_detect name raw
      = read_csv (detect_encoding chardet_detect raw)
      <-> endswith (lower name) ".xls" = false
          /\ endswith (lower name) ".xlsx" = false).
Proof.
  unfold read_any_file.
  destruct (endswith (lower name) ".xlsx") eqn:E5.
  - destruct (ends_dot_xlsx _ E5) as [E4 E3]. rewrite E4, E3. simpl.
    split; [split; auto|].
    split; split; intros K; try discriminate K.
    destruct K as [_ K]; discriminate K.
  - destruct (endswith (lower name) ".xls") eqn:E3; simpl.
    + rewrite (ends_xls_not_xlsx _ E3).
      split; [split; intros K; discriminate K|].
      split; [split; auto|].
      split; intros K; try discriminate K.
      destruct K as [K _]; discriminate K.
    + split; [split; intros K; discriminate K|].
      split; [split; intros K; discriminate K|].
      split; auto.
Qed.

Lemma X11_witness :
  endswith (lower "Centres.XLSX") ".xlsx" = true
  /\ read_any_file (fun _ => None) "Centres.XLSX" [] = read_excel "openpyxl".
Proof.
  assert (H : endswith (lower "Centres.XLSX") ".xlsx" = true) by reflexivity.
  split; [exact H|].
  exact (proj2 (proj1 (X11_reader_by_extension (fun _ => None) "Centres.XLSX" [])) H).
Defined.

(* ------------------------------------------------------------------ *)
(** * Encoding detection, the result *)

Lemma lower_char_idempotent c : lower_char (lower_char c) = lower_char c.
Proof. destruct c as [[] [] [] [] [] [] [] []]; reflexivity. Qed.

Lemma lower_idempotent s : lower (lower s) = lower s.
Proof.
  induction s as [|c s IH]; simpl; auto.
  now rewrite lower_char_idempotent, IH.
Qed.

(** X12. [detect_encoding] never returns the empty string, "ascii" or
    "unknown", and what it returns is in lower case. *)
Theorem X12_detect_encoding_result
        (chardet_detect : list Byte.byte -> option string)
        (raw_bytes : list Byte.byte) :
  ~ In (detect_encoding chardet_detect raw_bytes) fallback_names
  /\ lower (detect_encoding chardet_detect raw_bytes)
     = detect_encoding chardet_detect raw_bytes.
Proof.
  unfold detect_encoding. fold fallback_names.
  set (guess := match chardet_detect _ with Some e => e | None => "" end).
  destruct (existsb (String.eqb (lower guess)) fallback_names) eqn:E.
  - split; [|reflexivity]. simpl. intros [H|[H|[H|[]]]]; discriminate H.
  - split; [|apply lower_idempotent].
    intros H. apply in_fallback_names in H. congruence.
Qed.


(* ------------------------------------------------------------------ *)
(** * The session state over the runs of the script *)

Section SessionFacts.

Import Session.

Variable Coord : Type.

Implicit Types (st : session_state Coord) (i : run_inputs Coord).

Lemma at_least_refl st : at_least _ st st.
Proof. repeat split; auto. Qed.

Lemma at_least_trans (st1 st2 st3 : session_state Coord) :
  at_least _ st1 st2 -> at_least _ st2 st3 -> at_least _ st1 st3.
Proof. intros (A & B & C) (A' & B' & C'). repeat split; auto. Qed.

Lemma login_at_least st i : at_least _ st (login _ st i).
Proof.
  unfold login. destruct (login_clicked _ i); [|apply at_least_refl].
  destruct (String.eqb _ _); [|apply at_least_refl].
  repeat split; simpl; auto.
Qed.

Lemma set_coordinates_at_least st c : at_least _ st (set_coordinates _ st c).
Proof.
  destruct c as [c|]; [|apply at_least_refl].
  repeat split; simpl; auto. discriminate.
Qed.

Lemma locate_at_least st i : at_least _ st (locate _ st i).
Proof.
  unfold locate. destruct (mode _ i).
  - destruct (detect_clicked _ i);
      [apply set_coordinates_at_least|apply at_least_refl].
  - destruct (_ && _)%bool;
      [apply set_coordinates_at_least|apply at_least_refl].
Qed.

Lemma trigger_at_least st i : at_least _ st (trigger _ st i).
Proof.
  unfold trigger. destruct (search_clicked _ i); [|apply at_least_refl].
  destruct (user_coordinates _ st); [|apply at_least_refl].
  repeat split; simpl; auto. intros _. discriminate.
Qed.

Lemma rerun_at_least st i : at_least _ st (rerun _ st i).
Proof.
  unfold rerun.
  eapply at_least_trans; [apply login_at_least|].
  eapply at_least_trans; [apply locate_at_least|apply trigger_at_least].
Qed.

Lemma runs_at_least runs : forall st, at_least _ st (fold_left (rerun _) runs st).
Proof.
  induction runs as [|i runs IH]; intros st; simpl; [apply at_least_refl|].
  eapply at_least_trans; [apply rerun_at_least|apply IH].
Qed.

Lemma rerun_located st i :
  located_if_searching _ st -> located_if_searching _ (rerun _ st i).
Proof.
  unfold located_if_searching, rerun, trigger. intros Inv.
  set (st1 := locate _ (login _ st i) i).
  assert (A : at_least _ st st1).
  { eapply at_least_trans; [apply login_at_least|apply locate_at_least]. }
  assert (S1 : search_triggered _ st1 = search_triggered _ st).
  { unfold st1, locate, login, set_coordinates.
    destruct (login_clicked _ i); [destruct (String.eqb _ _)|];
      destruct (mode _ i);
      try destruct (detect_clicked _ i);
      try destruct (_ && _)%bool;
      try destruct (detected _ i); try destruct (geocoded _ i); reflexivity. }
  destruct (search_clicked _ i).
  - destruct (user_coordinates _ st1) eqn:E; simpl.
    + intros _. discriminate.
    + rewrite S1. intros H. exfalso.
      destruct A as (_ & B & _). apply (B (Inv H)). exact E.
  - rewrite S1. intros H. destruct A as (_ & B & _). auto.
Qed.

Lemma runs_located runs : forall st,
  located_if_searching _ st -> located_if_searching _ (fold_left (rerun _) runs st).
Proof.
  induction runs as [|i runs IH]; intros st H; simpl; auto.
  apply IH. now apply rerun_located.
Qed.

Lemma login_admin st i :
  is_admin _ (rerun _ st i) = true ->
  is_admin _ st = true
  \/ (login_clicked _ i = true /\ pwd _ i = get_admin_pass (secret _ i) (env _ i)).
Proof.
  unfold rerun, trigger, locate, login, set_coordinates.
  destruct (login_clicked _ i) eqn:L;
    [destruct (String.eqb_spec (pwd _ i) (get_admin_pass (secret _ i) (env _ i)))|];
    auto;
    destruct (mode _ i);
    try destruct (detect_clicked _ i);
    try destruct (_ && _)%bool;
    try destruct (detected _ i); try destruct (geocoded _ i);
    destruct (search_clicked _ i); simpl;
    try destruct (user_coordinates _ st); simpl; auto.
Qed.

Lemma runs_admin runs : forall st,
  is_admin _ (fold_left (rerun _) runs st) = true ->
  is_admin _ st = true
  \/ exists i, In i runs /\ login_clicked _ i = true
               /\ pwd _ i = get_admin_pass (secret _ i) (env _ i).
Proof.
  induction runs as [|i runs IH]; intros st H; simpl in *; auto.
  destruct (IH _ H) as [A|(j & Hj & Hl)].
  - destruct (login_admin st i A) as [A'|A']; auto.
    right. exists i. auto.
  - right. exists j. auto.
Qed.

End SessionFacts.

(** X13. Over any sequence of runs of the script, the search is on only if
    a location is stored: the results section is shown exactly when
    [search_triggered] is set. *)
Theorem X13_search_needs_location
        (Coord : Type) (runs : list (Session.run_inputs Coord)) :
  (Session.search_triggered _ (Session.session _ runs) = true ->
   Session.user_coordinates _ (Session.session _ runs) <> None)
  /\ Session.shows_results _ (Session.session _ runs)
     = Session.search_triggered _ (Session.session _ runs).
Proof.
  assert (H : Session.located_if_searching Coord (Session.session _ runs)).
  { apply runs_located. intros H. discriminate H. }
  split; [exact H|].
  unfold Session.shows_results.
  destruct (Session.search_triggered _ (Session.session _ runs)) eqn:E; auto.
  destruct (Session.user_coordinates _ (Session.session _ runs)) eqn:U; auto.
  exfalso. now apply H.
Qed.

(** X14. No run undoes what an earlier run set: once admin, the session
    stays admin (there is no logout); a stored location is replaced but
    never cleared, also when a later lookup finds nothing; a search once
    triggered stays on. *)
Theorem X14_session_never_resets
        (Coord : Type) (runs more : list (Session.run_inputs Coord)) :
  (Session.is_admin _ (Session.session _ runs) = true ->
   Session.is_admin _ (Session.session _ (runs ++ more)) = true)
  /\ (Session.user_coordinates _ (Session.session _ runs) <> None ->
      Session.user_coordinates _ (Session.session _ (runs ++ more)) <> None)
  /\ (Session.search_triggered _ (Session.session _ runs) = true ->
      Session.search_triggered _ (Session.session _ (runs ++ more)) = true).
Proof.
  unfold Session.session. rewrite fold_left_app. apply runs_at_least.
Qed.

(** X15. The admin upload section is shown only if, in some run, Login was
    clicked with the password that [get_admin_pass] returned in that
    run. *)
Theorem X15_admin_needs_password
        (Coord : Type) (runs : list (Session.run_inputs Coord)) :
  Session.shows_admin_upload _ (Session.session _ runs) = true ->
  exists i, In i runs
            /\ Session.login_clicked _ i = true
            /\ Session.pwd _ i
               = Session.get_admin_pass (Session.secret _ i) (Session.env _ i).
Proof.
  unfold Session.shows_admin_upload, Session.session. intros H.
  destruct (runs_admin Coord runs _ H) as [A|A]; [discriminate A|exact A].
Qed.

(** X16. The password comes from the secrets file when it has one, whatever
    the environment says, and from the environment otherwise; when neither
    is configured it is the empty string, and a click on Login with the
    password box left empty makes the session admin. *)
Theorem X16_unconfigured_password_is_empty
        (Coord : Type) (st : Session.session_state Coord)
        (i : Session.run_inputs Coord) :
  (forall p e, Session.get_admin_pass (Some p) e = p)
  /\ (forall p, Session.get_admin_pass None (Some p) = p)
  /\ (Session.login_clicked _ i = true ->
      Session.pwd _ i = "" ->
      Session.secret _ i = None -> Session.env _ i = None ->
      Session.shows_admin_upload _ (Session.rerun _ st i) = true).
Proof.
  split; [reflexivity|]. split; [reflexivity|].
  intros L P S E.
  assert (A : Session.is_admin _ (Session.login _ st i) = true)
    by (unfold Session.login; rewrite L, P, S, E; reflexivity).
  unfold Session.shows_admin_upload, Session.rerun.
  pose proof (locate_at_least Coord (Session.login _ st i) i) as (A1 & _).
  pose proof (trigger_at_least Coord
                (Session.locate _ (Session.login _ st i) i) i) as (A2 & _).
  auto.
Qed.

Lemma X13_witness :
  Session.search_triggered nat
    (Session.session nat
       [Session.mkInputs nat "" false None None Session.AutoDetect "" false None
                         false None true;
        Session.mkInputs nat "" false None None Session.AutoDetect "" false None
                         true (Some 7) true]) = true
  /\ Session.user_coordinates nat
       (Session.session nat
          [Session.mkInputs nat "" false None None Session.AutoDetect "" false None
                            false None true;
           Session.mkInputs nat "" false None None Session.AutoDetect "" false None
                            true (Some 7) true]) <> None.
Proof.
  assert (H : Session.search_triggered nat
                (Session.session nat
                   [Session.mkInputs nat "" false None None Session.AutoDetect ""
                                     false None false None true;
                    Session.mkInputs nat "" false None None Session.AutoDetect ""
                                     false None true (Some 7) true]) = true)
    by reflexivity.
  split; [exact H|].
  exact (proj1 (X13_search_needs_location nat _) H).
Defined.

Lemma X14_witness :
  Session.is_admin nat
    (Session.session nat
       [Session.mkInputs nat "s3cret" true (Some "s3cret") None
                         Session.AutoDetect "" false None false None false]) = true
  /\ Session.is_admin nat
       (Session.session nat
          ([Session.mkInputs nat "s3cret" true (Some "s3cret") None
                             Session.AutoDetect "" false None false None false]
           ++ [Session.mkInputs nat "wrong" true (Some "s3cret") None
                                Session.AutoDetect "" false None false None false]))
     = true.
Proof.
  assert (H : Session.is_admin nat
                (Session.session nat
                   [Session.mkInputs nat "s3cret" true (Some "s3cret") None
                                     Session.AutoDetect "" false None false None
                                     false]) = true) by reflexivity.
  split; [exact H|].
  exact (proj1 (X14_session_never_resets nat _ _) H).
Defined.

Lemma X15_witness :
  Session.shows_admin_upload nat
    (Session.session nat
       [Session.mkInputs nat "s3cret" true None (Some "s3cret")
                         Session.ManualEntry "Pune" false None false None false])
  = true
  /\ exists i,
       In i [Session.mkInputs nat "s3cret" true None (Some "s3cret")
                              Session.ManualEntry "Pune" false None false None false]
       /\ Session.login_clicked nat i = true
       /\ Session.pwd nat i
          = Session.get_admin_pass (Session.secret nat i) (Session.env nat i).
Proof.
  assert (H : Session.shows_admin_upload nat
                (Session.session nat
                   [Session.mkInputs nat "s3cret" true None (Some "s3cret")
                                     Session.ManualEntry "Pune" false None false
                                     None false]) = true) by reflexivity.
  split; [exact H|].
  exact (X15_admin_needs_password nat _ H).
Defined.

Lemma X16_witness :
  Session.login_clicked nat
    (Session.mkInputs nat "" true None None Session.AutoDetect "" false None
                      false None false) = true
  /\ Session.shows_admin_upload nat
       (Session.rerun nat (Session.initial nat)
          (Session.mkInputs nat "" true None None Session.AutoDetect "" false None
                            false None false)) = true.
Proof.
  split; [reflexivity|].
  exact (proj2 (proj2 (X16_unconfigured_password_is_empty nat
                         (Session.initial nat)
                         (Session.mkInputs nat "" true None None
                            Session.AutoDetect "" false None false None false)))
               eq_refl eq_refl eq_refl eq_refl).
Defined.
